(** * Network assembly of the SPIN fork of gem5

    A shallow embedding of [configs/network/Network.py] (the option
    schema [define_options], the variant selector [create_network] and the
    assembler [init_network]) and of the parameter declarations of
    [src/mem/ruby/network/garnet2.0/GarnetNetwork.py].

    Conventions.
    - Python integers are [Z].  The scripts are Python 2: [/] between two
      integers is floor division, which is [Z.div].
    - A SimObject is a value; an assignment [obj.attr = v] is an update of
      that value, and a function that mutates its argument returns the
      updated value.  An integer parameter takes a value within the bounds
      of its declared type only ([Param.UInt32], [Param.Int]); an
      assignment outside them raises.
    - An exception is an [Outcome] returned next to the object as it was when
      the exception left the function: the writes made before it stay. *)

From Stdlib Require Import ZArith List Ascii String Bool Lia.
Import ListNotations.

Local Open Scope string_scope.
Local Open Scope Z_scope.

(** ** Objects of the surrounding simulator

    Routers, links and the Ruby system are built elsewhere; the two files
    only store and count them, so they are handles here. *)

Inductive RubySystem : Type := RubySystemRef (k : nat).
Inductive BasicRouter : Type := RouterRef (k : nat).
Inductive BasicIntLink : Type := IntLinkRef (k : nat).
Inductive BasicExtLink : Type := ExtLinkRef (k : nat).

(** The object [FaultModel()] of line 202. *)
Inductive FaultModel : Type := FaultModel_new.

(** ** The classes [create_network] chooses between *)

Inductive NetworkClass : Type := GarnetNetwork | SimpleNetwork.
Inductive IntLinkClass : Type := GarnetIntLink | SimpleIntLink.
Inductive ExtLinkClass : Type := GarnetExtLink | SimpleExtLink.
Inductive RouterClass : Type := GarnetRouter | Switch.
Inductive InterfaceClass : Type := GarnetNetworkInterface.

(** ** The option schema, [define_options] *)

Module Options.

Record t : Type := mk {
  topology : string;
  mesh_rows : Z;
  network : string;
  router_latency : Z;
  link_latency : Z;
  link_width_bits : Z;
  vcs_per_vnet : Z;
  buffers_per_ctrl_vc : Z;
  buffers_per_data_vc : Z;
  routing_algorithm : string;
  network_fault_model : bool;
  garnet_deadlock_threshold : Z;
  enable_spin_scheme : Z;
  dd_thresh : Z;
  max_turn_capacity : Z;
  enable_sb_placement : Z;
  enable_variable_dd : Z;
  enable_rotating_priority : Z;
  fbfly_rows : Z;
  fbfly_cols : Z;
  enable_fbfly_vc_partition : Z;
  dfly_group_size : Z;
  enable_dfly_dlock_avoidance : Z;
  staleness_thresh : Z;
  enable_escape_vc : Z
}.

(** The [choices] lists of lines 44 and 69. *)
Definition network_choices : list string := ["simple"; "garnet2.0"].
Definition routing_algorithm_choices : list string :=
  ["table"; "xy"; "turn_model"; "random"; "west_first"; "ugal"].

Definition mem (s : string) (l : list string) : bool :=
  existsb (String.eqb s) l.

(** What the parser lets through: the two options of type [choice] hold
    one of their choices; the others are unconstrained integers, strings
    and flags. *)
Definition accepted (o : t) : bool :=
  mem (network o) network_choices
  && mem (routing_algorithm o) routing_algorithm_choices.

(** An option given on the command line replaces the default. *)
Definition set_topology (v : string) (o : t) : t :=
  mk v (mesh_rows o) (network o) (router_latency o) (link_latency o)
     (link_width_bits o) (vcs_per_vnet o) (buffers_per_ctrl_vc o)
     (buffers_per_data_vc o) (routing_algorithm o) (network_fault_model o)
     (garnet_deadlock_threshold o) (enable_spin_scheme o) (dd_thresh o)
     (max_turn_capacity o) (enable_sb_placement o) (enable_variable_dd o)
     (enable_rotating_priority o) (fbfly_rows o) (fbfly_cols o)
     (enable_fbfly_vc_partition o) (dfly_group_size o)
     (enable_dfly_dlock_avoidance o) (staleness_thresh o)
     (enable_escape_vc o).

Definition set_mesh_rows (v : Z) (o : t) : t :=
  mk (topology o) v (network o) (router_latency o) (link_latency o)
     (link_width_bits o) (vcs_per_vnet o) (buffers_per_ctrl_vc o)
     (buffers_per_data_vc o) (routing_algorithm o) (network_fault_model o)
     (garnet_deadlock_threshold o) (enable_spin_scheme o) (dd_thresh o)
     (max_turn_capacity o) (enable_sb_placement o) (enable_variable_dd o)
     (enable_rotating_priority o) (fbfly_rows o) (fbfly_cols o)
     (enable_fbfly_vc_partition o) (dfly_group_size o)
     (enable_dfly_dlock_avoidance o) (staleness_thresh o)
     (enable_escape_vc o).

Definition set_network (v : string) (o : t) : t :=
  mk (topology o) (mesh_rows o) v (router_latency o) (link_latency o)
     (link_width_bits o) (vcs_per_vnet o) (buffers_per_ctrl_vc o)
     (buffers_per_data_vc o) (routing_algorithm o) (network_fault_model o)
     (garnet_deadlock_threshold o) (enable_spin_scheme o) (dd_thresh o)
     (max_turn_capacity o) (enable_sb_placement o) (enable_variable_dd o)
     (enable_rotating_priority o) (fbfly_rows o) (fbfly_cols o)
     (enable_fbfly_vc_partition o) (dfly_group_size o)
     (enable_dfly_dlock_avoidance o) (staleness_thresh o)
     (enable_escape_vc o).



Definition set_link_width_bits (v : Z) (o : t) : t :=
  mk (topology o) (mesh_rows o) (network o) (router_latency o)
     (link_latency o) v (vcs_per_vnet o) (buffers_per_ctrl_vc o)
     (buffers_per_data_vc o) (routing_algorithm o) (network_fault_model o)
     (garnet_deadlock_threshold o) (enable_spin_scheme o) (dd_thresh o)
     (max_turn_capacity o) (enable_sb_placement o) (enable_variable_dd o)
     (enable_rotating_priority o) (fbfly_rows o) (fbfly_cols o)
     (enable_fbfly_vc_partition o) (dfly_group_size o)
     (enable_dfly_dlock_avoidance o) (staleness_thresh o)
     (enable_escape_vc o).

Definition set_vcs_per_vnet (v : Z) (o : t) : t :=
  mk (topology o) (mesh_rows o) (network o) (router_latency o)
     (link_latency o) (link_width_bits o) v (buffers_per_ctrl_vc o)
     (buffers_per_data_vc o) (routing_algorithm o) (network_fault_model o)
     (garnet_deadlock_threshold o) (enable_spin_scheme o) (dd_thresh o)
     (max_turn_capacity o) (enable_sb_placement o) (enable_variable_dd o)
     (enable_rotating_priority o) (fbfly_rows o) (fbfly_cols o)
     (enable_fbfly_vc_partition o) (dfly_group_size o)
     (enable_dfly_dlock_avoidance o) (staleness_thresh o)
     (enable_escape_vc o).



Definition set_routing_algorithm (v : string) (o : t) : t :=
  mk (topology o) (mesh_rows o) (network o) (router_latency o)
     (link_latency o) (link_width_bits o) (vcs_per_vnet o)
     (buffers_per_ctrl_vc o) (buffers_per_data_vc o) v
     (network_fault_model o) (garnet_deadlock_threshold o)
     (enable_spin_scheme o) (dd_thresh o) (max_turn_capacity o)
     (enable_sb_placement o) (enable_variable_dd o)
     (enable_rotating_priority o) (fbfly_rows o) (fbfly_cols o)
     (enable_fbfly_vc_partition o) (dfly_group_size o)
     (enable_dfly_dlock_avoidance o) (staleness_thresh o)
     (enable_escape_vc o).

Definition set_network_fault_model (v : bool) (o : t) : t :=
  mk (topology o) (mesh_rows o) (network o) (router_latency o)
     (link_latency o) (link_width_bits o) (vcs_per_vnet o)
     (buffers_per_ctrl_vc o) (buffers_per_data_vc o) (routing_algorithm o) v
     (garnet_deadlock_threshold o) (enable_spin_scheme o) (dd_thresh o)
     (max_turn_capacity o) (enable_sb_placement o) (enable_variable_dd o)
     (enable_rotating_priority o) (fbfly_rows o) (fbfly_cols o)
     (enable_fbfly_vc_partition o) (dfly_group_size o)
     (enable_dfly_dlock_avoidance o) (staleness_thresh o)
     (enable_escape_vc o).

Definition set_enable_escape_vc (v : Z) (o : t) : t :=
  mk (topology o) (mesh_rows o) (network o) (router_latency o)
     (link_latency o) (link_width_bits o) (vcs_per_vnet o)
     (buffers_per_ctrl_vc o) (buffers_per_data_vc o) (routing_algorithm o)
     (network_fault_model o) (garnet_deadlock_threshold o)
     (enable_spin_scheme o) (dd_thresh o) (max_turn_capacity o)
     (enable_sb_placement o) (enable_variable_dd o)
     (enable_rotating_priority o) (fbfly_rows o) (fbfly_cols o)
     (enable_fbfly_vc_partition o) (dfly_group_size o)
     (enable_dfly_dlock_avoidance o) (staleness_thresh o) v.

End Options.

(** The defaults [define_options] declares: what the parser yields when no
    option is given on the command line. *)
Definition default_options : Options.t :=
  {| Options.topology := "Crossbar";
     Options.mesh_rows := 0;
     Options.network := "simple";
     Options.router_latency := 1;
     Options.link_latency := 1;
     Options.link_width_bits := 128;
     Options.vcs_per_vnet := 4;
     Options.buffers_per_ctrl_vc := 1;
     Options.buffers_per_data_vc := 5;
     Options.routing_algorithm := "table";
     Options.network_fault_model := false;
     Options.garnet_deadlock_threshold := 500000;
     Options.enable_spin_scheme := 0;
     Options.dd_thresh := 300;
     Options.max_turn_capacity := 100;
     Options.enable_sb_placement := 0;
     Options.enable_variable_dd := 0;
     Options.enable_rotating_priority := 0;
     Options.fbfly_rows := 0;
     Options.fbfly_cols := 0;
     Options.enable_fbfly_vc_partition := 0;
     Options.dfly_group_size := 0;
     Options.enable_dfly_dlock_avoidance := 0;
     Options.staleness_thresh := 5;
     Options.enable_escape_vc := 0 |}.

(** ** Integer parameters

    The names of the integer parameters [class GarnetNetwork] declares
    (GarnetNetwork.py lines 40-62), and [number_of_virtual_networks], which
    lines 72 and 83 look up in the parent and the base class [RubyNetwork]
    declares.  A network holds a table from these names to values. *)

Module Attr.

Inductive t : Type :=
| num_rows
| ni_flit_size
| vcs_per_vnet
| buffers_per_data_vc
| buffers_per_ctrl_vc
| routing_algorithm
| garnet_deadlock_threshold
| enable_spin_scheme
| dd_thresh
| max_turn_capacity
| enable_sb_placement
| enable_variable_dd
| staleness_thresh
| enable_dfly_dlock_avoidance
| dfly_group_size
| enable_fbfly_vc_partition
| enable_escape_vc
| enable_rotating_priority
| number_of_virtual_networks.

Definition eq_dec (a b : t) : {a = b} + {a <> b}.
Proof. decide equality. Defined.

(** The types the parameters are declared with. *)
Inductive ParamType : Type := UInt32 | Int.

(** Lines 40-62: [Param.Int] for [num_rows] and [routing_algorithm],
    [Param.UInt32] for the others ([number_of_virtual_networks] is unsigned
    in the base class and is never assigned here). *)
Definition type (a : t) : ParamType :=
  match a with
  | num_rows | routing_algorithm => Int
  | _ => UInt32
  end.

(** The bounds of the two types: 32 bits, unsigned and signed. *)
Definition fits (ty : ParamType) (v : Z) : bool :=
  match ty with
  | UInt32 => (0 <=? v) && (v <=? 4294967295)
  | Int => (-2147483648 <=? v) && (v <=? 2147483647)
  end.

End Attr.

(** The value a parameter is declared or constructed with: a number, or
    [Parent.a], to be looked up in the object that owns this one. *)
Inductive Param : Type :=
| Value (v : Z)
| Parent (a : Attr.t).

(** ** [class GarnetNetworkInterface], GarnetNetwork.py lines 64-75 *)

Module NetworkInterface.

Record t : Type := mk {
  id : Z;
  vcs_per_vnet : Param;
  virt_nets : Param;
  garnet_deadlock_threshold : Param
}.

(** [InterfaceClass(id=i)]: [id] has no default and is given; the three
    other parameters keep the default of their declaration. *)
Definition new (c : InterfaceClass) (i : Z) : t :=
  match c with
  | GarnetNetworkInterface =>
      {| id := i;
         vcs_per_vnet := Parent Attr.vcs_per_vnet;
         virt_nets := Parent Attr.number_of_virtual_networks;
         garnet_deadlock_threshold := Parent Attr.garnet_deadlock_threshold |}
  end.

End NetworkInterface.

(** ** Outcomes

    [AssertionError] is the failed [assert] of line 200.  [TypeError] is
    what the parameter classes of m5 raise for an integer outside the
    bounds of the declared type. *)

Inductive PyError : Type := AssertionError | TypeError.

Inductive Outcome : Type :=
| Returned
| Raised (e : PyError).

(** ** The network object

    [class GarnetNetwork], GarnetNetwork.py lines 37-62, with the collections
    [create_network] passes to every network class (line 153). *)

Module Network.

Record t : Type := mk {
  cls : NetworkClass;
  ruby_system : RubySystem;
  topology : string;
  routers : list BasicRouter;
  ext_links : list BasicExtLink;
  int_links : list BasicIntLink;
  netifs : list NetworkInterface.t;
  params : Attr.t -> option Z;
  enable_fault_model : bool;
  fault_model : option FaultModel;
  buffers_set_up : bool
}.

(** The defaults of lines 40-62.  [number_of_virtual_networks] has none
    here.  The declaration of [SimpleNetwork] is not among the two files:
    its table starts without values. *)
Definition defaults (c : NetworkClass) (a : Attr.t) : option Z :=
  match c with
  | SimpleNetwork => None
  | GarnetNetwork =>
      match a with
      | Attr.num_rows => Some 0
      | Attr.ni_flit_size => Some 16
      | Attr.vcs_per_vnet => Some 4
      | Attr.buffers_per_data_vc => Some 5
      | Attr.buffers_per_ctrl_vc => Some 1
      | Attr.routing_algorithm => Some 0
      | Attr.garnet_deadlock_threshold => Some 50000
      | Attr.enable_spin_scheme => Some 0
      | Attr.dd_thresh => Some 300
      | Attr.max_turn_capacity => Some 100
      | Attr.enable_sb_placement => Some 0
      | Attr.enable_variable_dd => Some 0
      | Attr.staleness_thresh => Some 5
      | Attr.enable_dfly_dlock_avoidance => Some 0
      | Attr.dfly_group_size => Some 4
      | Attr.enable_fbfly_vc_partition => Some 0
      | Attr.enable_escape_vc => Some 0
      | Attr.enable_rotating_priority => Some 0
      | Attr.number_of_virtual_networks => None
      end
  end.

(** [NetworkClass(ruby_system = ruby, topology = topology, routers = [],
    ext_links = [], int_links = [], netifs = [])], lines 152-153. *)
Definition new (c : NetworkClass) (ruby : RubySystem) (topo : string) : t :=
  {| cls := c; ruby_system := ruby; topology := topo;
     routers := []; ext_links := []; int_links := []; netifs := [];
     params := defaults c;
     enable_fault_model := false; fault_model := None;
     buffers_set_up := false |}.

Definition set_routers (v : list BasicRouter) (n : t) : t :=
  mk (cls n) (ruby_system n) (topology n) v (ext_links n) (int_links n)
     (netifs n) (params n) (enable_fault_model n) (fault_model n)
     (buffers_set_up n).

Definition set_ext_links (v : list BasicExtLink) (n : t) : t :=
  mk (cls n) (ruby_system n) (topology n) (routers n) v (int_links n)
     (netifs n) (params n) (enable_fault_model n) (fault_model n)
     (buffers_set_up n).

Definition set_int_links (v : list BasicIntLink) (n : t) : t :=
  mk (cls n) (ruby_system n) (topology n) (routers n) (ext_links n) v
     (netifs n) (params n) (enable_fault_model n) (fault_model n)
     (buffers_set_up n).

Definition set_netifs (v : list NetworkInterface.t) (n : t) : t :=
  mk (cls n) (ruby_system n) (topology n) (routers n) (ext_links n)
     (int_links n) v (params n) (enable_fault_model n) (fault_model n)
     (buffers_set_up n).

Definition set_params (v : Attr.t -> option Z) (n : t) : t :=
  mk (cls n) (ruby_system n) (topology n) (routers n) (ext_links n)
     (int_links n) (netifs n) v (enable_fault_model n) (fault_model n)
     (buffers_set_up n).

Definition set_enable_fault_model (v : bool) (n : t) : t :=
  mk (cls n) (ruby_system n) (topology n) (routers n) (ext_links n)
     (int_links n) (netifs n) (params n) v (fault_model n)
     (buffers_set_up n).

Definition set_fault_model (v : option FaultModel) (n : t) : t :=
  mk (cls n) (ruby_system n) (topology n) (routers n) (ext_links n)
     (int_links n) (netifs n) (params n) (enable_fault_model n) v
     (buffers_set_up n).

Definition set_buffers_set_up (v : bool) (n : t) : t :=
  mk (cls n) (ruby_system n) (topology n) (routers n) (ext_links n)
     (int_links n) (netifs n) (params n) (enable_fault_model n)
     (fault_model n) v.

(** [network.a] for an integer parameter [a]. *)
Definition get (a : Attr.t) (n : t) : option Z := params n a.

(** The table with [v] at [a]. *)
Definition store (a : Attr.t) (v : Z) (n : t) : t :=
  set_params (fun b => if Attr.eq_dec a b then Some v else params n b) n.

(** [network.a = v] for an integer parameter [a]: the value is stored when
    it is within the bounds of the type [a] is declared with, and the
    assignment raises, the network unchanged, when it is not.  The one
    assignment [init_network] makes for every family, to
    [routing_algorithm], is taken to reach a [SimpleNetwork] as well: the
    code makes it unconditionally, and the file that could say otherwise is
    not among the two. *)
Definition set (a : Attr.t) (v : Z) (n : t) : t * Outcome :=
  if Attr.fits (Attr.type a) v
  then (store a v n, Returned)
  else (n, Raised TypeError).

End Network.

(** Modelled from the spec: the lookup behind [Parent.a] lives in
    [m5.proxy], which is not among the two files; section 4.3 has the
    interface take the value from the Network's own resolved value, the
    network being the object the interfaces are assigned to (line 197).
    [unproxy parent p] is what a parameter [p] of an object owned by
    [parent] evaluates to once the configuration is instantiated. *)
Definition unproxy (parent : Network.t) (p : Param) : option Z :=
  match p with
  | Value v => Some v
  | Parent a => Network.get a parent
  end.

(** ** The variant selector, [create_network], lines 133-155 *)

Definition create_network (options : Options.t) (ruby : RubySystem)
  : Network.t * IntLinkClass * ExtLinkClass * RouterClass
    * option InterfaceClass :=
  let '(NetworkClass, IntLinkClass, ExtLinkClass, RouterClass, InterfaceClass) :=
    if String.eqb (Options.network options) "garnet2.0"
    then (GarnetNetwork, GarnetIntLink, GarnetExtLink, GarnetRouter,
          Some GarnetNetworkInterface)
    else (SimpleNetwork, SimpleIntLink, SimpleExtLink, Switch, None) in
  let network := Network.new NetworkClass ruby (Options.topology options) in
  (network, IntLinkClass, ExtLinkClass, RouterClass, InterfaceClass).

(** ** The assembler, [init_network], lines 157-202 *)

(** Python's [enumerate]. *)
Fixpoint enumerate_from {A : Type} (start : nat) (l : list A)
  : list (nat * A) :=
  match l with
  | [] => []
  | x :: l' => (start, x) :: enumerate_from (S start) l'
  end.

Definition enumerate {A : Type} (l : list A) : list (nat * A) :=
  enumerate_from 0 l.

(** Modelled from the spec: [network.setup_buffers()], line 192, is a
    method of [SimpleNetwork], whose file is not among the two; section 4.3
    calls it the external buffer setup step, which sizes buffers from the
    topology.  Here it records that it ran and touches nothing the two
    files read. *)
Definition setup_buffers (network : Network.t) : Network.t :=
  Network.set_buffers_set_up true network.

(** A statement: it takes the network and leaves it, returning or
    raising.  [s1 ;; s2] runs [s2] on what [s1] left unless [s1] raised. *)
Definition Statement : Type := Network.t -> Network.t * Outcome.

Definition then_ (s1 s2 : Statement) : Statement :=
  fun network =>
    match s1 network with
    | (network', Returned) => s2 network'
    | (network', Raised e) => (network', Raised e)
    end.

Notation "s1 ;; s2" := (then_ s1 s2) (at level 61, right associativity).

Definition pass : Statement := fun network => (network, Returned).

(** Line 173: a comparison whose result is dropped. *)
Definition compare_topology (options : Options.t) : Statement :=
  fun network =>
    let _ := String.eqb (Network.topology network) (Options.topology options) in
    (network, Returned).

(** Lines 159-176: the parameters copied for the detailed family. *)
Definition init_garnet_parameters (options : Options.t) : Statement :=
  if String.eqb (Options.network options) "garnet2.0" then
    Network.set Attr.num_rows (Options.mesh_rows options) ;;
    Network.set Attr.vcs_per_vnet (Options.vcs_per_vnet options) ;;
    Network.set Attr.buffers_per_ctrl_vc (Options.buffers_per_ctrl_vc options) ;;
    Network.set Attr.buffers_per_data_vc (Options.buffers_per_data_vc options) ;;
    Network.set Attr.ni_flit_size (Options.link_width_bits options / 8) ;;
    Network.set Attr.garnet_deadlock_threshold (Options.garnet_deadlock_threshold options) ;;
    Network.set Attr.enable_spin_scheme (Options.enable_spin_scheme options) ;;
    Network.set Attr.dd_thresh (Options.dd_thresh options) ;;
    Network.set Attr.max_turn_capacity (Options.max_turn_capacity options) ;;
    Network.set Attr.enable_sb_placement (Options.enable_sb_placement options) ;;
    Network.set Attr.enable_variable_dd (Options.enable_variable_dd options) ;;
    Network.set Attr.staleness_thresh (Options.staleness_thresh options) ;;
    Network.set Attr.enable_dfly_dlock_avoidance (Options.enable_dfly_dlock_avoidance options) ;;
    compare_topology options ;;
    Network.set Attr.enable_fbfly_vc_partition (Options.enable_fbfly_vc_partition options) ;;
    Network.set Attr.enable_escape_vc (Options.enable_escape_vc options) ;;
    Network.set Attr.enable_rotating_priority (Options.enable_rotating_priority options)
  else pass.

(** Lines 178-189: the routing-algorithm name becomes a number. *)
Definition init_routing_algorithm (options : Options.t) : Statement :=
  if String.eqb (Options.routing_algorithm options) "table" then
    Network.set Attr.routing_algorithm 0
  else if String.eqb (Options.routing_algorithm options) "xy" then
    Network.set Attr.routing_algorithm 1
  else if String.eqb (Options.routing_algorithm options) "west_first" then
    Network.set Attr.routing_algorithm 2
  else if String.eqb (Options.routing_algorithm options) "random" then
    Network.set Attr.routing_algorithm 3
  else if String.eqb (Options.routing_algorithm options) "ugal" then
    Network.set Attr.routing_algorithm 4
  else
    Network.set Attr.routing_algorithm 0.

(** Lines 191-192. *)
Definition init_buffers (options : Options.t) : Statement :=
  fun network =>
    if String.eqb (Options.network options) "simple"
    then (setup_buffers network, Returned)
    else (network, Returned).

(** Lines 194-197: one interface per external link, numbered by
    [enumerate]. *)
Definition init_netifs (InterfaceClass : option InterfaceClass) : Statement :=
  fun network =>
    match InterfaceClass with
    | Some InterfaceClass =>
        let netifs :=
          map (fun '(i, n) => NetworkInterface.new InterfaceClass (Z.of_nat i))
              (enumerate (Network.ext_links network)) in
        (Network.set_netifs netifs network, Returned)
    | None => (network, Returned)
    end.

(** Lines 199-202.  The [assert] is live, as in an interpreter run without
    [-O]; when it fails the two assignments below it are not reached. *)
Definition init_fault_model (options : Options.t) : Statement :=
  fun network =>
    if Options.network_fault_model options then
      if String.eqb (Options.network options) "garnet2.0" then
        let network := Network.set_enable_fault_model true network in
        let network := Network.set_fault_model (Some FaultModel_new) network in
        (network, Returned)
      else (network, Raised AssertionError)
    else (network, Returned).

Definition init_network (options : Options.t) (network : Network.t)
  (InterfaceClass : option InterfaceClass) : Network.t * Outcome :=
  (init_garnet_parameters options ;;
   init_routing_algorithm options ;;
   init_buffers options ;;
   init_netifs InterfaceClass ;;
   init_fault_model options) network.

(** ** The pipeline around the two functions *)

(** Modelled from the spec: the structural builder is an external
    collaborator ([makeTopology] of the topology scripts, not among the two
    files).  Section 3 has it populate the routers and the links of the
    network that [create_network] made, before [init_network] runs. *)
Definition populate (routers : list BasicRouter) (links : list BasicIntLink)
  (extLinks : list BasicExtLink) (network : Network.t) : Network.t :=
  let network := Network.set_routers routers network in
  let network := Network.set_int_links links network in
  let network := Network.set_ext_links extLinks network in
  network.

(** Section 4.3's [assemble]: select the variant, let the structural
    builder fill the collections, then run [init_network] with the
    interface class the selector returned. *)
Definition assemble (options : Options.t) (ruby : RubySystem)
  (routers : list BasicRouter) (links : list BasicIntLink)
  (extLinks : list BasicExtLink) : Network.t * Outcome :=
  let '(network, IntLinkClass, ExtLinkClass, RouterClass, InterfaceClass) :=
    create_network options ruby in
  let network := populate routers links extLinks network in
  init_network options network InterfaceClass.

(** The routing-algorithm encoding as section 6 of the specification
    documents it. *)
Definition documented_encoding : list (string * Z) :=
  [("table", 0); ("xy", 1); ("west_first", 2); ("random", 3); ("ugal", 4)].

(** ** Concrete configurations *)

Definition ruby0 : RubySystem := RubySystemRef 0.

Definition three_ext_links : list BasicExtLink :=
  [ExtLinkRef 0; ExtLinkRef 1; ExtLinkRef 2].

Definition ten_routers : list BasicRouter := map RouterRef (seq 0 10).

(** [--network garnet2.0], everything else at its default. *)
Definition garnet_options : Options.t :=
  Options.set_network "garnet2.0" default_options.

(** [--network-fault-model] with the default family, [simple]. *)
Definition simple_fault_options : Options.t :=
  Options.set_network_fault_model true default_options.


(** [--topology Mesh --mesh-rows r --network garnet2.0]. *)
Definition mesh_options (r : Z) : Options.t :=
  Options.set_mesh_rows r (Options.set_topology "Mesh" garnet_options).

(** [--topology name --enable-escape-vc 1 --network garnet2.0]. *)
Definition escape_vc_options (name : string) : Options.t :=
  Options.set_enable_escape_vc 1 (Options.set_topology name garnet_options).

(** ** Vocabulary of the statements *)

(** Agreement on the fields no stage of [init_network] writes. *)
Definition same_structure (n n' : Network.t) : Prop :=
  Network.cls n' = Network.cls n
  /\ Network.ruby_system n' = Network.ruby_system n
  /\ Network.topology n' = Network.topology n
  /\ Network.routers n' = Network.routers n
  /\ Network.ext_links n' = Network.ext_links n
  /\ Network.int_links n' = Network.int_links n.

(** What the detailed family's block leaves in each parameter. *)
Definition garnet_parameter (o : Options.t) (n : Network.t) (a : Attr.t)
  : option Z :=
  match a with
  | Attr.num_rows => Some (Options.mesh_rows o)
  | Attr.ni_flit_size => Some (Options.link_width_bits o / 8)
  | Attr.vcs_per_vnet => Some (Options.vcs_per_vnet o)
  | Attr.buffers_per_data_vc => Some (Options.buffers_per_data_vc o)
  | Attr.buffers_per_ctrl_vc => Some (Options.buffers_per_ctrl_vc o)
  | Attr.garnet_deadlock_threshold =>
      Some (Options.garnet_deadlock_threshold o)
  | Attr.enable_spin_scheme => Some (Options.enable_spin_scheme o)
  | Attr.dd_thresh => Some (Options.dd_thresh o)
  | Attr.max_turn_capacity => Some (Options.max_turn_capacity o)
  | Attr.enable_sb_placement => Some (Options.enable_sb_placement o)
  | Attr.enable_variable_dd => Some (Options.enable_variable_dd o)
  | Attr.staleness_thresh => Some (Options.staleness_thresh o)
  | Attr.enable_dfly_dlock_avoidance =>
      Some (Options.enable_dfly_dlock_avoidance o)
  | Attr.enable_fbfly_vc_partition =>
      Some (Options.enable_fbfly_vc_partition o)
  | Attr.enable_escape_vc => Some (Options.enable_escape_vc o)
  | Attr.enable_rotating_priority =>
      Some (Options.enable_rotating_priority o)
  | Attr.routing_algorithm | Attr.dfly_group_size
  | Attr.number_of_virtual_networks => Network.get a n
  end.

(** The identifier the documented encoding gives a name: its entry, and 0,
    the identifier of [table], for a name without entry. *)
Definition documented_id (name : string) : Z :=
  match find (fun entry => String.eqb name (fst entry)) documented_encoding with
  | Some entry => snd entry
  | None => 0
  end.

(** The interfaces lines 195-196 build for a list of external links. *)
Definition interfaces_for (c : InterfaceClass) (extLinks : list BasicExtLink)
  : list NetworkInterface.t :=
  map (fun '(i, n) => NetworkInterface.new c (Z.of_nat i)) (enumerate extLinks).

(** ** Vocabulary of the bounds

    The sixteen assignments of lines 160-176 as a list, in the order of the
    source, to say which of them fit and which took effect. *)

Definition garnet_assignments (o : Options.t) : list (Attr.t * Z) :=
  [ (Attr.num_rows, Options.mesh_rows o);
    (Attr.vcs_per_vnet, Options.vcs_per_vnet o);
    (Attr.buffers_per_ctrl_vc, Options.buffers_per_ctrl_vc o);
    (Attr.buffers_per_data_vc, Options.buffers_per_data_vc o);
    (Attr.ni_flit_size, Options.link_width_bits o / 8);
    (Attr.garnet_deadlock_threshold, Options.garnet_deadlock_threshold o);
    (Attr.enable_spin_scheme, Options.enable_spin_scheme o);
    (Attr.dd_thresh, Options.dd_thresh o);
    (Attr.max_turn_capacity, Options.max_turn_capacity o);
    (Attr.enable_sb_placement, Options.enable_sb_placement o);
    (Attr.enable_variable_dd, Options.enable_variable_dd o);
    (Attr.staleness_thresh, Options.staleness_thresh o);
    (Attr.enable_dfly_dlock_avoidance, Options.enable_dfly_dlock_avoidance o);
    (Attr.enable_fbfly_vc_partition, Options.enable_fbfly_vc_partition o);
    (Attr.enable_escape_vc, Options.enable_escape_vc o);
    (Attr.enable_rotating_priority, Options.enable_rotating_priority o) ].

Definition fit (assignment : Attr.t * Z) : bool :=
  Attr.fits (Attr.type (fst assignment)) (snd assignment).

(** Every value the detailed family copies is within the bounds of the
    parameter it goes to. *)
Definition parameters_fit (o : Options.t) : bool :=
  forallb fit (garnet_assignments o).

(** The assignments up to the first that does not fit. *)
Fixpoint fitting_prefix (l : list (Attr.t * Z)) : list (Attr.t * Z) :=
  match l with
  | [] => []
  | x :: l' => if fit x then x :: fitting_prefix l' else []
  end.

(** The assignments of the block that take effect, and whether the block
    runs to its end. *)
Definition copied (o : Options.t) : list (Attr.t * Z) :=
  if String.eqb (Options.network o) "garnet2.0"
  then fitting_prefix (garnet_assignments o)
  else [].

Definition block_completes (o : Options.t) : bool :=
  negb (String.eqb (Options.network o) "garnet2.0") || parameters_fit o.

(** A list of assignments run as statements, and as plain stores. *)
Fixpoint run (l : list (Attr.t * Z)) : Statement :=
  match l with
  | [] => pass
  | (a, v) :: l' => Network.set a v ;; run l'
  end.

Fixpoint stores (l : list (Attr.t * Z)) (n : Network.t) : Network.t :=
  match l with
  | [] => n
  | (a, v) :: l' => stores l' (Network.store a v n)
  end.

(** The value the last assignment to [a] in [l] gives it. *)
Fixpoint assigned (a : Attr.t) (l : list (Attr.t * Z)) : option Z :=
  match l with
  | [] => None
  | (b, v) :: l' =>
      match assigned a l' with
      | Some w => Some w
      | None => if Attr.eq_dec b a then Some v else None
      end
  end.

(** [--network garnet2.0 --link-width-bits 34359738368]: a positive
    multiple of 8 whose eighth is 2^32. *)
Definition wide_options : Options.t :=
  Options.set_link_width_bits 34359738368
    (Options.set_network "garnet2.0" default_options).

(** [--network garnet2.0 --vcs-per-vnet 7]. *)
Definition seven_vcs_options : Options.t :=
  Options.set_vcs_per_vnet 7 (Options.set_network "garnet2.0" default_options).

(** [--network garnet2.0 --vcs-per-vnet -1]. *)
Definition negative_vcs_options : Options.t :=
  Options.set_vcs_per_vnet (-1)
    (Options.set_network "garnet2.0" default_options).

(** A Garnet network holding ten routers and three external links. *)
Definition ten_router_network (topology : string) : Network.t :=
  Network.set_ext_links three_ext_links
    (Network.set_routers ten_routers (Network.new GarnetNetwork ruby0 topology)).

(** ** Vocabulary of the further properties *)

(** Two networks that hold the same values: equal fields, and the same
    value for every integer parameter. *)
Definition same_network (n n' : Network.t) : Prop :=
  same_structure n n'
  /\ Network.netifs n' = Network.netifs n
  /\ (forall a, Network.get a n' = Network.get a n)
  /\ Network.enable_fault_model n' = Network.enable_fault_model n
  /\ Network.fault_model n' = Network.fault_model n
  /\ Network.buffers_set_up n' = Network.buffers_set_up n.

(** Agreement of two option sets on the options whose value reaches the
    network in [init_network]: all but [topology], [router_latency],
    [link_latency], [fbfly_rows], [fbfly_cols] and [dfly_group_size]. *)
Definition agree_on_used (o o' : Options.t) : Prop :=
  Options.network o' = Options.network o
  /\ Options.mesh_rows o' = Options.mesh_rows o
  /\ Options.link_width_bits o' = Options.link_width_bits o
  /\ Options.vcs_per_vnet o' = Options.vcs_per_vnet o
  /\ Options.buffers_per_ctrl_vc o' = Options.buffers_per_ctrl_vc o
  /\ Options.buffers_per_data_vc o' = Options.buffers_per_data_vc o
  /\ Options.routing_algorithm o' = Options.routing_algorithm o
  /\ Options.network_fault_model o' = Options.network_fault_model o
  /\ Options.garnet_deadlock_threshold o' = Options.garnet_deadlock_threshold o
  /\ Options.enable_spin_scheme o' = Options.enable_spin_scheme o
  /\ Options.dd_thresh o' = Options.dd_thresh o
  /\ Options.max_turn_capacity o' = Options.max_turn_capacity o
  /\ Options.enable_sb_placement o' = Options.enable_sb_placement o
  /\ Options.enable_variable_dd o' = Options.enable_variable_dd o
  /\ Options.enable_rotating_priority o' = Options.enable_rotating_priority o
  /\ Options.enable_fbfly_vc_partition o' = Options.enable_fbfly_vc_partition o
  /\ Options.enable_dfly_dlock_avoidance o' = Options.enable_dfly_dlock_avoidance o
  /\ Options.staleness_thresh o' = Options.staleness_thresh o
  /\ Options.enable_escape_vc o' = Options.enable_escape_vc o.

(** The fault-model flag is set exactly when a fault model is attached. *)
Definition fault_model_consistent (n : Network.t) : Prop :=
  Network.enable_fault_model n = true <-> Network.fault_model n <> None.

(** A run with options that disagree with [garnet_options] on the six
    options above only. *)
Definition garnet_options_elsewhere : Options.t :=
  Options.mk "Torus" 0 "garnet2.0" 7 9 128 4 1 5 "table" false 500000
             0 300 100 0 0 0 3 5 0 16 0 5 0.

(** ** [class GarnetRouter], GarnetNetwork.py lines 77-84 *)

Module Router.

Record t : Type := mk {
  vcs_per_vnet : Param;
  virt_nets : Param
}.

(** A router constructed without a value for either parameter. *)
Definition new (c : RouterClass) : option t :=
  match c with
  | GarnetRouter =>
      Some {| vcs_per_vnet := Parent Attr.vcs_per_vnet;
              virt_nets := Parent Attr.number_of_virtual_networks |}
  | Switch => None
  end.

End Router.

(** ** The option parser [define_options] fills

    The parser is the [optparse.OptionParser] of the Python library, kept
    to what [define_options] uses of it: the options declared so far, in
    order, and the table of defaults.  Help texts have no effect and are
    left out. *)

Module OptionParser.

Inductive Value : Type :=
| VString (s : string)
| VInt (z : Z)
| VBool (b : bool).

(** [type="string"], [type="int"], [type="choice"] with its [choices], and
    [action="store_true"]. *)
Inductive Kind : Type :=
| string_
| int_
| choice (choices : list string)
| store_true.

Record Option_ : Type := mk_option {
  flag : string;
  kind : Kind;
  default : Value
}.

Definition Defaults : Type := string -> option Value.

Record t : Type := mk {
  option_list : list Option_;
  defaults : Defaults
}.

Inductive Error : Type := OptionConflictError (flag : string).

(** A call returns the parser, or raises with the parser as it was then. *)
Inductive Result : Type :=
| Ok (parser : t)
| Raise (e : Error) (parser : t).

Definition update (k : string) (v : Value) (d : Defaults) : Defaults :=
  fun k' => if String.eqb k k' then Some v else d k'.

(** The attribute an option is stored under: the flag without its two
    leading dashes, the other dashes turned into underscores. *)
Fixpoint underscores (s : string) : string :=
  match s with
  | EmptyString => EmptyString
  | String c s' =>
      String (if Ascii.eqb c "-"%char then "_"%char else c) (underscores s')
  end.

Definition dest (flag : string) : string :=
  underscores (String.substring 2 (String.length flag - 2) flag).

Definition has_option (f : string) (parser : t) : bool :=
  existsb (fun o => String.eqb (flag o) f) (option_list parser).

(** [parser.set_defaults(k=v)]. *)
Definition set_defaults (k : string) (v : Value) (parser : t) : t :=
  {| option_list := option_list parser;
     defaults := update k v (defaults parser) |}.

(** [parser.add_option(flag, ..., default=v)]: a flag declared before is a
    conflict, which the parser raises; otherwise the option is appended and
    its default recorded. *)
Definition add_option (o : Option_) (parser : t) : Result :=
  if has_option (flag o) parser
  then Raise (OptionConflictError (flag o)) parser
  else Ok {| option_list := option_list parser ++ [o];
             defaults := update (dest (flag o)) (default o) (defaults parser) |}.

Fixpoint add_options (l : list Option_) (parser : t) : Result :=
  match l with
  | [] => Ok parser
  | o :: l' =>
      match add_option o parser with
      | Ok parser' => add_options l' parser'
      | Raise e parser' => Raise e parser'
      end
  end.

(** The defaults after the options of [l] have been added to [d]. *)
Fixpoint overlay (l : list Option_) (d : Defaults) : Defaults :=
  match l with
  | [] => d
  | o :: l' => overlay l' (update (dest (flag o)) (default o) d)
  end.

(** A default of the kind its option declares; optparse does not check
    this when the option is added. *)
Definition default_fits (o : Option_) : bool :=
  match kind o, default o with
  | string_, VString _ => true
  | int_, VInt _ => true
  | choice choices, VString s => existsb (String.eqb s) choices
  | store_true, VBool _ => true
  | _, _ => false
  end.

Definition get_string (d : Defaults) (k : string) : option string :=
  match d k with Some (VString s) => Some s | _ => None end.

Definition get_int (d : Defaults) (k : string) : option Z :=
  match d k with Some (VInt z) => Some z | _ => None end.

Definition get_bool (d : Defaults) (k : string) : option bool :=
  match d k with Some (VBool b) => Some b | _ => None end.

End OptionParser.

(** The calls of [add_option] in [define_options], lines 39-131, in
    order. *)
Definition declarations : list OptionParser.Option_ :=
  let opt := OptionParser.mk_option in
  let str := OptionParser.VString in
  let int := OptionParser.VInt in
  [ opt "--topology" OptionParser.string_ (str "Crossbar");
    opt "--mesh-rows" OptionParser.int_ (int 0);
    opt "--network" (OptionParser.choice ["simple"; "garnet2.0"]) (str "simple");
    opt "--router-latency" OptionParser.int_ (int 1);
    opt "--link-latency" OptionParser.int_ (int 1);
    opt "--link-width-bits" OptionParser.int_ (int 128);
    opt "--vcs-per-vnet" OptionParser.int_ (int 4);
    opt "--buffers-per-ctrl-vc" OptionParser.int_ (int 1);
    opt "--buffers-per-data-vc" OptionParser.int_ (int 5);
    opt "--routing-algorithm"
        (OptionParser.choice
           ["table"; "xy"; "turn_model"; "random"; "west_first"; "ugal"])
        (str "table");
    opt "--network-fault-model" OptionParser.store_true
        (OptionParser.VBool false);
    opt "--garnet-deadlock-threshold" OptionParser.int_ (int 500000);
    opt "--enable-spin-scheme" OptionParser.int_ (int 0);
    opt "--dd-thresh" OptionParser.int_ (int 300);
    opt "--max-turn-capacity" OptionParser.int_ (int 100);
    opt "--enable-sb-placement" OptionParser.int_ (int 0);
    opt "--enable-variable-dd" OptionParser.int_ (int 0);
    opt "--enable-rotating-priority" OptionParser.int_ (int 0);
    opt "--fbfly-rows" OptionParser.int_ (int 0);
    opt "--fbfly-cols" OptionParser.int_ (int 0);
    opt "--enable-fbfly-vc-partition" OptionParser.int_ (int 0);
    opt "--dfly-group-size" OptionParser.int_ (int 0);
    opt "--enable-dfly-dlock-avoidance" OptionParser.int_ (int 0);
    opt "--staleness-thresh" OptionParser.int_ (int 5);
    opt "--enable-escape-vc" OptionParser.int_ (int 0) ].

(** [define_options], lines 35-131. *)
Definition define_options (parser : OptionParser.t) : OptionParser.Result :=
  let parser :=
    OptionParser.set_defaults "cpu_type" (OptionParser.VString "timing") parser in
  OptionParser.add_options declarations parser.

(** The option values a command line without options yields: each attribute
    [create_network] and [init_network] read, and the six others, taken
    from the parser's defaults. *)
Definition read_options (d : OptionParser.Defaults) : option Options.t :=
  let bind {A B : Type} (x : option A) (k : A -> option B) : option B :=
    match x with Some a => k a | None => None end in
  let str := OptionParser.get_string d in
  let int := OptionParser.get_int d in
  bind (str "topology") (fun topology =>
  bind (int "mesh_rows") (fun mesh_rows =>
  bind (str "network") (fun network =>
  bind (int "router_latency") (fun router_latency =>
  bind (int "link_latency") (fun link_latency =>
  bind (int "link_width_bits") (fun link_width_bits =>
  bind (int "vcs_per_vnet") (fun vcs_per_vnet =>
  bind (int "buffers_per_ctrl_vc") (fun buffers_per_ctrl_vc =>
  bind (int "buffers_per_data_vc") (fun buffers_per_data_vc =>
  bind (str "routing_algorithm") (fun routing_algorithm =>
  bind (OptionParser.get_bool d "network_fault_model") (fun network_fault_model =>
  bind (int "garnet_deadlock_threshold") (fun garnet_deadlock_threshold =>
  bind (int "enable_spin_scheme") (fun enable_spin_scheme =>
  bind (int "dd_thresh") (fun dd_thresh =>
  bind (int "max_turn_capacity") (fun max_turn_capacity =>
  bind (int "enable_sb_placement") (fun enable_sb_placement =>
  bind (int "enable_variable_dd") (fun enable_variable_dd =>
  bind (int "enable_rotating_priority") (fun enable_rotating_priority =>
  bind (int "fbfly_rows") (fun fbfly_rows =>
  bind (int "fbfly_cols") (fun fbfly_cols =>
  bind (int "enable_fbfly_vc_partition") (fun enable_fbfly_vc_partition =>
  bind (int "dfly_group_size") (fun dfly_group_size =>
  bind (int "enable_dfly_dlock_avoidance") (fun enable_dfly_dlock_avoidance =>
  bind (int "staleness_thresh") (fun staleness_thresh =>
  bind (int "enable_escape_vc") (fun enable_escape_vc =>
  Some (Options.mk topology mesh_rows network router_latency link_latency
          link_width_bits vcs_per_vnet buffers_per_ctrl_vc buffers_per_data_vc
          routing_algorithm network_fault_model garnet_deadlock_threshold
          enable_spin_scheme dd_thresh max_turn_capacity enable_sb_placement
          enable_variable_dd enable_rotating_priority fbfly_rows fbfly_cols
          enable_fbfly_vc_partition dfly_group_size
          enable_dfly_dlock_avoidance staleness_thresh
          enable_escape_vc)))))))))))))))))))))))))).

(** A parser nothing has been declared on. *)
Definition empty_parser : OptionParser.t :=
  {| OptionParser.option_list := []; OptionParser.defaults := fun _ => None |}.

(** The parser [define_options] leaves when it starts from
    [empty_parser]. *)
Definition defined_parser : OptionParser.t :=
  {| OptionParser.option_list := declarations;
     OptionParser.defaults :=
       OptionParser.overlay declarations
         (OptionParser.update "cpu_type" (OptionParser.VString "timing")
            (fun _ => None)) |}.

(** * Properties *)

(** ** Small runs *)

Example run_garnet_interface_ids :
  map NetworkInterface.id
      (Network.netifs (fst (assemble garnet_options ruby0 [] [] three_ext_links)))
  = [0; 1; 2].
Proof. reflexivity. Qed.

Example run_garnet_flit_size :
  Network.get Attr.ni_flit_size
    (fst (assemble garnet_options ruby0 [] [] three_ext_links)) = Some 16.
Proof. reflexivity. Qed.

Example run_garnet_threshold :
  Network.get Attr.garnet_deadlock_threshold
    (Network.new GarnetNetwork ruby0 "Mesh") = Some 50000
  /\ Network.get Attr.garnet_deadlock_threshold
       (fst (assemble garnet_options ruby0 [] [] three_ext_links))
     = Some 500000.
Proof. split; reflexivity. Qed.

Example run_simple :
  snd (assemble default_options ruby0 [] [] three_ext_links) = Returned
  /\ Network.netifs (fst (assemble default_options ruby0 [] [] three_ext_links))
     = []
  /\ Network.buffers_set_up
       (fst (assemble default_options ruby0 [] [] three_ext_links)) = true
  /\ Network.get Attr.vcs_per_vnet
       (fst (assemble default_options ruby0 [] [] three_ext_links)) = None.
Proof. repeat split. Qed.

Example run_routing_names :
  map (fun name =>
         Network.get Attr.routing_algorithm
           (fst (init_network (Options.set_routing_algorithm name garnet_options)
                   (Network.new GarnetNetwork ruby0 "Mesh")
                   (Some GarnetNetworkInterface))))
      (Options.routing_algorithm_choices ++ ["dor"])
  = [Some 0; Some 1; Some 0; Some 3; Some 2; Some 4; Some 0].
Proof. reflexivity. Qed.

Example run_fault_model_garnet :
  let r := assemble (Options.set_network_fault_model true garnet_options)
             ruby0 [] [] three_ext_links in
  snd r = Returned
  /\ Network.enable_fault_model (fst r) = true
  /\ Network.fault_model (fst r) = Some FaultModel_new.
Proof. repeat split. Qed.

Example run_topology_kept :
  Network.topology
    (fst (init_network (escape_vc_options "Torus")
            (Network.new GarnetNetwork ruby0 "Mesh")
            (Some GarnetNetworkInterface)))
  = "Mesh".
Proof. reflexivity. Qed.

(** A negative [vcs_per_vnet] stops the run at line 161: [num_rows] has been
    written, nothing after it has. *)
Example run_negative_vcs :
  let r := init_network (Options.set_mesh_rows 2 negative_vcs_options)
             (ten_router_network "Mesh") (Some GarnetNetworkInterface) in
  snd r = Raised TypeError
  /\ Network.get Attr.num_rows (fst r) = Some 2
  /\ Network.get Attr.vcs_per_vnet (fst r) = Some 4
  /\ Network.get Attr.garnet_deadlock_threshold (fst r) = Some 50000
  /\ Network.netifs (fst r) = [].
Proof. repeat split. Qed.

(** ** The parameter table *)

Lemma get_store_same (a : Attr.t) (v : Z) (n : Network.t) :
  Network.get a (Network.store a v n) = Some v.
Proof.
  unfold Network.get, Network.store; cbn.
  destruct (Attr.eq_dec a a) as [_ | ne]; [reflexivity | now destruct ne].
Qed.

Lemma get_store_other (a b : Attr.t) (v : Z) (n : Network.t) :
  a <> b -> Network.get b (Network.store a v n) = Network.get b n.
Proof.
  intros ne. unfold Network.get, Network.store; cbn.
  destruct (Attr.eq_dec a b) as [e | _]; [now destruct ne | reflexivity].
Qed.

Lemma fits_UInt32 (v : Z) :
  Attr.fits Attr.UInt32 v = true <-> 0 <= v <= 4294967295.
Proof. unfold Attr.fits. rewrite andb_true_iff, !Z.leb_le. reflexivity. Qed.

Lemma fits_Int (v : Z) :
  Attr.fits Attr.Int v = true <-> -2147483648 <= v <= 2147483647.
Proof. unfold Attr.fits. rewrite andb_true_iff, !Z.leb_le. reflexivity. Qed.

(** ** Lists of assignments *)

Lemma run_stores (l : list (Attr.t * Z)) :
  forall n,
    run l n
    = (stores (fitting_prefix l) n,
       if forallb fit l then Returned else Raised TypeError).
Proof.
  induction l as [| [a v] l IH]; intros n; cbn; [reflexivity |].
  unfold then_, Network.set, fit; cbn.
  destruct (Attr.fits (Attr.type a) v); cbn; [apply IH | reflexivity].
Qed.

Lemma stores_fields (l : list (Attr.t * Z)) :
  forall n,
    same_structure n (stores l n)
    /\ Network.netifs (stores l n) = Network.netifs n
    /\ Network.enable_fault_model (stores l n) = Network.enable_fault_model n
    /\ Network.fault_model (stores l n) = Network.fault_model n
    /\ Network.buffers_set_up (stores l n) = Network.buffers_set_up n.
Proof.
  unfold same_structure.
  induction l as [| [a v] l IH]; intros n; cbn; [now repeat split |].
  destruct (IH (Network.store a v n))
    as ((-> & -> & -> & -> & -> & ->) & -> & -> & -> & ->).
  now repeat split.
Qed.

Lemma stores_get (l : list (Attr.t * Z)) (a : Attr.t) :
  forall n,
    Network.get a (stores l n)
    = match assigned a l with
      | Some v => Some v
      | None => Network.get a n
      end.
Proof.
  induction l as [| [b v] l IH]; intros n; cbn; [reflexivity |].
  rewrite IH. destruct (assigned a l); [reflexivity |].
  destruct (Attr.eq_dec b a) as [-> | ne].
  - apply get_store_same.
  - now apply get_store_other.
Qed.

Lemma assigned_prefix (l : list (Attr.t * Z)) (a : Attr.t) (v : Z) :
  assigned a (fitting_prefix l) = Some v -> In (a, v) l /\ fit (a, v) = true.
Proof.
  induction l as [| [b w] l IH]; cbn; [discriminate |].
  destruct (fit (b, w)) eqn:F; cbn; [| discriminate].
  destruct (assigned a (fitting_prefix l)) as [u |].
  - intros H. injection H as ->. destruct (IH eq_refl) as [I F']. auto.
  - destruct (Attr.eq_dec b a) as [-> | ne]; [| discriminate].
    intros H. injection H as ->. auto.
Qed.

Lemma fitting_prefix_all (l : list (Attr.t * Z)) :
  forallb fit l = true -> fitting_prefix l = l.
Proof.
  induction l as [| x l IH]; cbn; [reflexivity |].
  intros H. apply andb_true_iff in H as [F H]. rewrite F. now rewrite IH.
Qed.

(** ** The stages of [init_network] *)

Lemma same_structure_refl (n : Network.t) : same_structure n n.
Proof. now repeat split. Qed.

Lemma same_structure_trans (n1 n2 n3 : Network.t) :
  same_structure n1 n2 -> same_structure n2 n3 -> same_structure n1 n3.
Proof.
  unfold same_structure.
  intros (a1 & a2 & a3 & a4 & a5 & a6) (b1 & b2 & b3 & b4 & b5 & b6).
  repeat split; congruence.
Qed.

Lemma then_ext (s1 s2 s2' : Statement) :
  (forall n, s2 n = s2' n) -> forall n, (s1 ;; s2) n = (s1 ;; s2') n.
Proof.
  intros H n. unfold then_. destruct (s1 n) as [n' [| e]]; [apply H | reflexivity].
Qed.

Lemma then_pass (s : Statement) (n : Network.t) : (s ;; pass) n = s n.
Proof. unfold then_, pass. now destruct (s n) as [n' [| e]]. Qed.

Lemma compare_topology_then (o : Options.t) (s : Statement) (n : Network.t) :
  (compare_topology o ;; s) n = s n.
Proof. reflexivity. Qed.

Lemma init_garnet_parameters_run (o : Options.t) (n : Network.t) :
  Options.network o = "garnet2.0" ->
  init_garnet_parameters o n = run (garnet_assignments o) n.
Proof.
  intros G. unfold init_garnet_parameters. rewrite G.
  change (String.eqb "garnet2.0" "garnet2.0") with true. cbv iota.
  unfold garnet_assignments, run. revert n.
  do 13 apply then_ext.
  intros n. rewrite compare_topology_then. revert n.
  do 2 apply then_ext.
  intros n. symmetry. apply then_pass.
Qed.

(** The block of lines 159-176 leaves the assignments up to the first
    that does not fit, and raises exactly when there is one. *)
Lemma init_garnet_parameters_eq (o : Options.t) (n : Network.t) :
  init_garnet_parameters o n
  = (stores (copied o) n,
     if block_completes o then Returned else Raised TypeError).
Proof.
  unfold copied, block_completes.
  destruct (String.eqb (Options.network o) "garnet2.0") eqn:G.
  - apply String.eqb_eq in G.
    rewrite (init_garnet_parameters_run o n G), run_stores. reflexivity.
  - unfold init_garnet_parameters. rewrite G. reflexivity.
Qed.

Lemma init_routing_algorithm_eq (o : Options.t) (n : Network.t) :
  init_routing_algorithm o n
  = (Network.store Attr.routing_algorithm
       (documented_id (Options.routing_algorithm o)) n,
     Returned).
Proof.
  unfold init_routing_algorithm, documented_id; cbn.
  repeat match goal with
         | |- context [String.eqb ?a ?b] => destruct (String.eqb a b)
         end; reflexivity.
Qed.

Lemma documented_id_range (name : string) : 0 <= documented_id name <= 4.
Proof.
  unfold documented_id; cbn.
  repeat match goal with
         | |- context [String.eqb ?a ?b] => destruct (String.eqb a b)
         end; cbn; lia.
Qed.

(** The network lines 178-197 leave. *)
Lemma middle_fields (o : Options.t) (ic : option InterfaceClass) (k : Z)
  (m : Network.t) :
  let m' := fst (init_netifs ic
                   (fst (init_buffers o
                           (Network.store Attr.routing_algorithm k m)))) in
  same_structure m m'
  /\ Network.netifs m'
     = match ic with
       | Some c => interfaces_for c (Network.ext_links m)
       | None => Network.netifs m
       end
  /\ Network.params m'
     = Network.params (Network.store Attr.routing_algorithm k m)
  /\ Network.enable_fault_model m' = Network.enable_fault_model m
  /\ Network.fault_model m' = Network.fault_model m
  /\ Network.buffers_set_up m'
     = String.eqb (Options.network o) "simple" || Network.buffers_set_up m.
Proof.
  unfold init_buffers, init_netifs, same_structure.
  destruct (String.eqb (Options.network o) "simple"), ic; cbn;
    now repeat split.
Qed.

Lemma init_network_eq (o : Options.t) (n : Network.t)
  (ic : option InterfaceClass) :
  init_network o n ic
  = if block_completes o
    then init_fault_model o
           (fst (init_netifs ic
                   (fst (init_buffers o
                           (Network.store Attr.routing_algorithm
                              (documented_id (Options.routing_algorithm o))
                              (stores (copied o) n))))))
    else (stores (copied o) n, Raised TypeError).
Proof.
  unfold init_network. unfold then_ at 1.
  rewrite init_garnet_parameters_eq.
  destruct (block_completes o); [| reflexivity].
  unfold then_ at 1. rewrite init_routing_algorithm_eq.
  unfold then_, init_buffers, init_netifs.
  destruct (String.eqb (Options.network o) "simple"), ic; reflexivity.
Qed.
(** ** [enumerate] *)

Lemma enumerate_from_length {A : Type} (l : list A) :
  forall start, List.length (enumerate_from start l) = List.length l.
Proof.
  induction l as [| x l IH]; intros start; cbn; [reflexivity |].
  now rewrite IH.
Qed.

Lemma enumerate_from_nth {A : Type} (l : list A) :
  forall start i x,
    nth_error l i = Some x ->
    nth_error (enumerate_from start l) i = Some ((start + i)%nat, x).
Proof.
  induction l as [| y l IH]; intros start [| i] x H; cbn in *;
    try discriminate.
  - injection H as ->. now rewrite Nat.add_0_r.
  - rewrite (IH (S start) i x H). now rewrite Nat.add_succ_r.
Qed.

Lemma interfaces_for_length (c : InterfaceClass) (l : list BasicExtLink) :
  List.length (interfaces_for c l) = List.length l.
Proof.
  unfold interfaces_for, enumerate.
  now rewrite length_map, enumerate_from_length.
Qed.

Lemma interfaces_for_nth (c : InterfaceClass) (l : list BasicExtLink)
  (i : nat) (x : BasicExtLink) :
  nth_error l i = Some x ->
  nth_error (interfaces_for c l) i = Some (NetworkInterface.new c (Z.of_nat i)).
Proof.
  intros H. unfold interfaces_for, enumerate.
  rewrite nth_error_map, (enumerate_from_nth l 0 i x H). reflexivity.
Qed.

Lemma interfaces_for_In (c : InterfaceClass) (l : list BasicExtLink)
  (ni : NetworkInterface.t) :
  In ni (interfaces_for c l) ->
  exists i, (i < List.length l)%nat /\ ni = NetworkInterface.new c (Z.of_nat i).
Proof.
  intros H. apply In_nth_error in H as [i H].
  assert (L : (i < List.length l)%nat).
  { rewrite <- (interfaces_for_length c l). apply nth_error_Some. congruence. }
  exists i. split; [exact L |].
  destruct (nth_error l i) as [x |] eqn:E.
  - rewrite (interfaces_for_nth c l i x E) in H. congruence.
  - apply nth_error_None in E. lia.
Qed.

(** * Further properties of [init_network] *)

Lemma enumerate_from_indices {A : Type} (l : list A) :
  forall start, map fst (enumerate_from start l) = seq start (List.length l).
Proof.
  induction l as [| x l IH]; intros start; cbn; [reflexivity |].
  now rewrite IH.
Qed.

Lemma interfaces_for_ids (c : InterfaceClass) (l : list BasicExtLink) :
  map NetworkInterface.id (interfaces_for c l)
  = map Z.of_nat (seq 0 (List.length l)).
Proof.
  unfold interfaces_for, enumerate.
  rewrite <- (enumerate_from_indices l 0), !map_map.
  apply map_ext. intros [i x]. now destruct c.
Qed.

Lemma NoDup_map_of_nat (l : list nat) :
  NoDup l -> NoDup (map Z.of_nat l).
Proof.
  induction 1 as [| x l N _ IH]; cbn; constructor; [| exact IH].
  intros H. apply in_map_iff in H as (y & E & I).
  apply Nat2Z.inj in E. now subst y.
Qed.

Lemma documented_id_entry (name : string) (k : Z) :
  In (name, k) documented_encoding -> documented_id name = k.
Proof.
  cbn. intros H.
  repeat (destruct H as [H | H]; [injection H as <- <-; reflexivity |]).
  destruct H.
Qed.

Lemma documented_id_default (name : string) :
  (forall k, ~ In (name, k) documented_encoding) -> documented_id name = 0.
Proof.
  intros H. unfold documented_id.
  destruct (find _ documented_encoding) as [[name' k] |] eqn:E;
    [| reflexivity].
  apply find_some in E as [I e]. cbn [fst] in e.
  apply String.eqb_eq in e. subst name'. now destruct (H k).
Qed.


(** ** What a run leaves *)

Lemma block_completes_garnet (o : Options.t) :
  Options.network o = "garnet2.0" -> block_completes o = parameters_fit o.
Proof. intros G. unfold block_completes. now rewrite G. Qed.

Lemma block_completes_other (o : Options.t) :
  Options.network o <> "garnet2.0" -> block_completes o = true.
Proof.
  intros G. apply String.eqb_neq in G. unfold block_completes. now rewrite G.
Qed.

Lemma copied_other (o : Options.t) :
  Options.network o <> "garnet2.0" -> copied o = [].
Proof. intros G. apply String.eqb_neq in G. unfold copied. now rewrite G. Qed.

Lemma copied_garnet (o : Options.t) :
  Options.network o = "garnet2.0" -> block_completes o = true ->
  copied o = garnet_assignments o.
Proof.
  intros G B. rewrite (block_completes_garnet o G) in B.
  unfold copied. rewrite G.
  change (String.eqb "garnet2.0" "garnet2.0") with true. cbv iota.
  now apply fitting_prefix_all.
Qed.

Lemma stores_garnet_get (o : Options.t) (n : Network.t) (a : Attr.t) :
  Network.get a (stores (garnet_assignments o) n) = garnet_parameter o n a.
Proof. destruct a; reflexivity. Qed.

(** The ways out of [init_network]: an assignment of the first block out
    of bounds, the assertion of line 200, or a return. *)
Lemma init_network_outcome (o : Options.t) (n : Network.t)
  (ic : option InterfaceClass) :
  snd (init_network o n ic)
  = if block_completes o
    then if Options.network_fault_model o
            && negb (String.eqb (Options.network o) "garnet2.0")
         then Raised AssertionError
         else Returned
    else Raised TypeError.
Proof.
  rewrite init_network_eq.
  destruct (block_completes o); [| reflexivity].
  unfold init_fault_model.
  destruct (Options.network_fault_model o);
    [destruct (String.eqb (Options.network o) "garnet2.0") |]; reflexivity.
Qed.

Lemma not_TypeError (o : Options.t) (n : Network.t)
  (ic : option InterfaceClass) :
  snd (init_network o n ic) <> Raised TypeError <-> block_completes o = true.
Proof.
  rewrite init_network_outcome.
  destruct (block_completes o); split; try congruence.
  intros _.
  destruct (Options.network_fault_model o
            && negb (String.eqb (Options.network o) "garnet2.0"));
    discriminate.
Qed.

Lemma init_fault_model_fields (o : Options.t) (m : Network.t) :
  same_structure m (fst (init_fault_model o m))
  /\ Network.netifs (fst (init_fault_model o m)) = Network.netifs m
  /\ Network.params (fst (init_fault_model o m)) = Network.params m
  /\ Network.buffers_set_up (fst (init_fault_model o m))
     = Network.buffers_set_up m.
Proof.
  unfold init_fault_model, same_structure.
  destruct (Options.network_fault_model o);
    [destruct (String.eqb (Options.network o) "garnet2.0") |];
    now repeat split.
Qed.

(** [init_network] writes neither the class, the Ruby system, the topology
    name, the routers nor the links. *)
Lemma init_network_structure (o : Options.t) (n : Network.t)
  (ic : option InterfaceClass) :
  same_structure n (fst (init_network o n ic)).
Proof.
  rewrite init_network_eq.
  destruct (block_completes o); cbn [fst]; [| apply stores_fields].
  eapply same_structure_trans; [apply stores_fields |].
  eapply same_structure_trans; [apply middle_fields |].
  apply init_fault_model_fields.
Qed.

Lemma init_network_get (o : Options.t) (n : Network.t)
  (ic : option InterfaceClass) (a : Attr.t) :
  a <> Attr.routing_algorithm ->
  Network.get a (fst (init_network o n ic))
  = Network.get a (stores (copied o) n).
Proof.
  intros ne. rewrite init_network_eq.
  destruct (block_completes o); [| reflexivity].
  unfold Network.get at 1.
  destruct (init_fault_model_fields o
              (fst (init_netifs ic
                      (fst (init_buffers o
                              (Network.store Attr.routing_algorithm
                                 (documented_id (Options.routing_algorithm o))
                                 (stores (copied o) n)))))))
    as (_ & _ & -> & _).
  destruct (middle_fields o ic (documented_id (Options.routing_algorithm o))
              (stores (copied o) n)) as (_ & _ & -> & _).
  apply get_store_other. congruence.
Qed.

Lemma init_network_stored_id (o : Options.t) (n : Network.t)
  (ic : option InterfaceClass) :
  block_completes o = true ->
  Network.get Attr.routing_algorithm (fst (init_network o n ic))
  = Some (documented_id (Options.routing_algorithm o)).
Proof.
  intros B. rewrite init_network_eq, B.
  unfold Network.get at 1.
  destruct (init_fault_model_fields o
              (fst (init_netifs ic
                      (fst (init_buffers o
                              (Network.store Attr.routing_algorithm
                                 (documented_id (Options.routing_algorithm o))
                                 (stores (copied o) n)))))))
    as (_ & _ & -> & _).
  destruct (middle_fields o ic (documented_id (Options.routing_algorithm o))
              (stores (copied o) n)) as (_ & _ & -> & _).
  apply get_store_same.
Qed.

Lemma init_network_get_garnet (o : Options.t) (n : Network.t)
  (ic : option InterfaceClass) (a : Attr.t) :
  Options.network o = "garnet2.0" ->
  block_completes o = true ->
  a <> Attr.routing_algorithm ->
  Network.get a (fst (init_network o n ic)) = garnet_parameter o n a.
Proof.
  intros G B ne. rewrite init_network_get by exact ne.
  rewrite (copied_garnet o G B). apply stores_garnet_get.
Qed.

Lemma init_network_get_other (o : Options.t) (n : Network.t)
  (ic : option InterfaceClass) (a : Attr.t) :
  Options.network o <> "garnet2.0" ->
  a <> Attr.routing_algorithm ->
  Network.get a (fst (init_network o n ic)) = Network.get a n.
Proof.
  intros G ne. rewrite init_network_get by exact ne.
  now rewrite (copied_other o G).
Qed.

Lemma init_network_netifs (o : Options.t) (n : Network.t)
  (ic : option InterfaceClass) :
  Network.netifs (fst (init_network o n ic))
  = if block_completes o
    then match ic with
         | Some c => interfaces_for c (Network.ext_links n)
         | None => Network.netifs n
         end
    else Network.netifs n.
Proof.
  rewrite init_network_eq.
  destruct (stores_fields (copied o) n)
    as ((_ & _ & _ & _ & E & _) & F & _).
  destruct (block_completes o); cbn [fst]; [| exact F].
  destruct (init_fault_model_fields o
              (fst (init_netifs ic
                      (fst (init_buffers o
                              (Network.store Attr.routing_algorithm
                                 (documented_id (Options.routing_algorithm o))
                                 (stores (copied o) n)))))))
    as (_ & -> & _).
  destruct (middle_fields o ic (documented_id (Options.routing_algorithm o))
              (stores (copied o) n)) as (_ & -> & _).
  now rewrite E, F.
Qed.

Lemma init_network_fault_fields (o : Options.t) (n : Network.t)
  (ic : option InterfaceClass) :
  let fired :=
    block_completes o
    && (Options.network_fault_model o
        && String.eqb (Options.network o) "garnet2.0") in
  Network.enable_fault_model (fst (init_network o n ic))
  = (if fired then true else Network.enable_fault_model n)
  /\ Network.fault_model (fst (init_network o n ic))
     = (if fired then Some FaultModel_new else Network.fault_model n).
Proof.
  rewrite init_network_eq.
  destruct (stores_fields (copied o) n) as (_ & _ & E & F & _).
  destruct (block_completes o); cbn [fst andb]; [| now split].
  destruct (middle_fields o ic (documented_id (Options.routing_algorithm o))
              (stores (copied o) n)) as (_ & _ & _ & E' & F' & _).
  unfold init_fault_model.
  destruct (Options.network_fault_model o);
    [destruct (String.eqb (Options.network o) "garnet2.0") |];
    cbn; split; congruence.
Qed.

Lemma init_network_buffers (o : Options.t) (n : Network.t)
  (ic : option InterfaceClass) :
  Network.buffers_set_up (fst (init_network o n ic))
  = String.eqb (Options.network o) "simple" || Network.buffers_set_up n.
Proof.
  rewrite init_network_eq.
  destruct (stores_fields (copied o) n) as (_ & _ & _ & _ & E).
  destruct (block_completes o) eqn:B; cbn [fst].
  - destruct (init_fault_model_fields o
                (fst (init_netifs ic
                        (fst (init_buffers o
                                (Network.store Attr.routing_algorithm
                                   (documented_id (Options.routing_algorithm o))
                                   (stores (copied o) n)))))))
      as (_ & _ & _ & ->).
    destruct (middle_fields o ic (documented_id (Options.routing_algorithm o))
                (stores (copied o) n)) as (_ & _ & _ & _ & _ & ->).
    cbn. now rewrite E.
  - rewrite E. unfold block_completes in B.
    apply orb_false_iff in B as [B _]. apply negb_false_iff in B.
    apply String.eqb_eq in B. now rewrite B.
Qed.

(** ** The pipeline *)

Lemma assemble_unfold (o : Options.t) (ruby : RubySystem)
  (rs : list BasicRouter) (il : list BasicIntLink) (el : list BasicExtLink) :
  assemble o ruby rs il el
  = init_network o
      (populate rs il el (fst (fst (fst (fst (create_network o ruby))))))
      (snd (create_network o ruby)).
Proof.
  unfold assemble, create_network.
  now destruct (String.eqb (Options.network o) "garnet2.0").
Qed.


Lemma assemble_netifs (o : Options.t) (ruby : RubySystem)
  (rs : list BasicRouter) (il : list BasicIntLink) (el : list BasicExtLink) :
  Network.netifs (fst (assemble o ruby rs il el))
  = if String.eqb (Options.network o) "garnet2.0" && block_completes o
    then interfaces_for GarnetNetworkInterface el
    else [].
Proof.
  rewrite assemble_unfold, init_network_netifs.
  unfold create_network.
  destruct (String.eqb (Options.network o) "garnet2.0"), (block_completes o);
    reflexivity.
Qed.

Lemma assemble_returned_garnet (o : Options.t) (ruby : RubySystem)
  (rs : list BasicRouter) (il : list BasicIntLink) (el : list BasicExtLink) :
  Options.network o = "garnet2.0" ->
  snd (assemble o ruby rs il el) = Returned ->
  block_completes o = true.
Proof.
  intros G R. rewrite assemble_unfold in R.
  apply (not_TypeError o
           (populate rs il el (fst (fst (fst (fst (create_network o ruby))))))
           (snd (create_network o ruby))).
  rewrite R. discriminate.
Qed.

Lemma assemble_get (o : Options.t) (ruby : RubySystem)
  (rs : list BasicRouter) (il : list BasicIntLink) (el : list BasicExtLink)
  (a : Attr.t) :
  Options.network o = "garnet2.0" ->
  block_completes o = true ->
  a <> Attr.routing_algorithm ->
  Network.get a (fst (assemble o ruby rs il el))
  = garnet_parameter o
      (populate rs il el (fst (fst (fst (fst (create_network o ruby)))))) a.
Proof.
  intros G B ne. rewrite assemble_unfold.
  now apply init_network_get_garnet.
Qed.

(** ** The routing-algorithm encoding *)

(** C1.  Lines 178-189 store for the routing-algorithm name the identifier
    of the documented encoding, table=0, xy=1, west_first=2, random=3,
    ugal=4, and 0 for every name without entry, [turn_model] among them,
    and never raise; the defaults, used when the option is omitted, give 0
    as well.  So does [init_network] whenever it gets to these lines, that
    is unless an assignment of the block before them is out of bounds.  The
    name has no part in how the run ends. *)
Theorem C1_routing_algorithm_encoding (o : Options.t) (n : Network.t)
  (ic : option InterfaceClass) :
  let name := Options.routing_algorithm o in
  let stored := Network.get Attr.routing_algorithm (fst (init_network o n ic)) in
  (snd (init_routing_algorithm o n) = Returned
   /\ Network.get Attr.routing_algorithm (fst (init_routing_algorithm o n))
      = Some (documented_id name))
  /\ (snd (init_network o n ic) <> Raised TypeError ->
      stored = Some (documented_id name)
      /\ (forall k, In (name, k) documented_encoding -> stored = Some k)
      /\ ((forall k, ~ In (name, k) documented_encoding) -> stored = Some 0)
      /\ (name = "turn_model" -> stored = Some 0)
      /\ snd (init_network o n ic) = snd (init_fault_model o n))
  /\ documented_id (Options.routing_algorithm default_options) = 0
  /\ (forall name',
        snd (init_network (Options.set_routing_algorithm name' o) n ic)
        = snd (init_network o n ic)).
Proof.
  intros name stored.
  split; [| split; [| split]].
  - rewrite init_routing_algorithm_eq. cbn [fst snd].
    split; [reflexivity | apply get_store_same].
  - intros H. apply not_TypeError in H.
    assert (S : stored = Some (documented_id name))
      by (unfold stored; now apply init_network_stored_id).
    split; [exact S | split; [| split; [| split]]].
    + intros k I. now rewrite S, (documented_id_entry name k I).
    + intros D. now rewrite S, (documented_id_default name D).
    + intros T. now rewrite S, T.
    + rewrite init_network_outcome, H. unfold init_fault_model.
      destruct (Options.network_fault_model o);
        [destruct (String.eqb (Options.network o) "garnet2.0") |];
        reflexivity.
  - reflexivity.
  - intros name'. rewrite !init_network_outcome. now destruct o.
Qed.

Lemma C1_routing_algorithm_encoding_witness :
  Network.get Attr.routing_algorithm
    (fst (init_network (Options.set_routing_algorithm "ugal" garnet_options)
            (Network.new GarnetNetwork ruby0 "Crossbar")
            (Some GarnetNetworkInterface)))
  = Some 4.
Proof.
  refine (proj1 (proj1 (proj2 (C1_routing_algorithm_encoding
                                 (Options.set_routing_algorithm "ugal" garnet_options)
                                 (Network.new GarnetNetwork ruby0 "Crossbar")
                                 (Some GarnetNetworkInterface))) _)).
  vm_compute. discriminate.
Defined.

(** ** Interfaces *)



(** ** Flit size *)

(** A link width that is a positive multiple of 8 and whose eighth does not
    fit [ni_flit_size]: the assignment of line 164 raises, and the flit
    size stays the 16 the class declares. *)
Lemma C3_counterexample :
  let r := init_network wide_options (Network.new GarnetNetwork ruby0 "Crossbar")
             (Some GarnetNetworkInterface) in
  Options.accepted wide_options = true
  /\ Options.network wide_options = "garnet2.0"
  /\ 0 < Options.link_width_bits wide_options
  /\ Options.link_width_bits wide_options mod 8 = 0
  /\ Options.link_width_bits wide_options / 8 = 4294967296
  /\ snd r = Raised TypeError
  /\ Network.get Attr.ni_flit_size (fst r) = Some 16.
Proof. repeat split. Qed.

(** C3, as the code has it.  With the detailed family, and unless an
    assignment of lines 160-176 is out of the bounds of its parameter,
    [init_network] sets [ni_flit_size] to the link width in bits divided by
    8, a value of 32 bits: 128 gives 16, 64 gives 8, and a positive
    multiple of 8 gives a positive flit size, eight times which is the link
    width again. *)
Theorem C3_flit_size (o : Options.t) (n : Network.t)
  (ic : option InterfaceClass) :
  Options.network o = "garnet2.0" ->
  snd (init_network o n ic) <> Raised TypeError ->
  let flit := Network.get Attr.ni_flit_size (fst (init_network o n ic)) in
  flit = Some (Options.link_width_bits o / 8)
  /\ 0 <= Options.link_width_bits o / 8 <= 4294967295
  /\ (Options.link_width_bits o = 128 -> flit = Some 16)
  /\ (Options.link_width_bits o = 64 -> flit = Some 8)
  /\ (0 < Options.link_width_bits o ->
      Options.link_width_bits o mod 8 = 0 ->
      exists f, flit = Some f /\ 0 < f /\ 8 * f = Options.link_width_bits o).
Proof.
  intros G H flit. apply not_TypeError in H.
  assert (F : flit = Some (Options.link_width_bits o / 8)).
  { unfold flit. now rewrite init_network_get_garnet by (trivial || discriminate). }
  assert (B : 0 <= Options.link_width_bits o / 8 <= 4294967295).
  { rewrite (block_completes_garnet o G) in H.
    unfold parameters_fit in H. rewrite forallb_forall in H.
    apply fits_UInt32.
    apply (H (Attr.ni_flit_size, Options.link_width_bits o / 8)).
    cbn. tauto. }
  split; [exact F | split; [exact B | split; [| split]]].
  - intros W. now rewrite F, W.
  - intros W. now rewrite F, W.
  - intros P M. exists (Options.link_width_bits o / 8).
    split; [exact F |].
    pose proof (Z.div_mod (Options.link_width_bits o) 8 ltac:(lia)). lia.
Qed.

Lemma C3_flit_size_witness :
  Network.get Attr.ni_flit_size
    (fst (init_network (Options.set_link_width_bits 64 garnet_options)
            (Network.new GarnetNetwork ruby0 "Crossbar")
            (Some GarnetNetworkInterface)))
  = Some 8.
Proof.
  refine (proj1 (proj2 (proj2 (proj2
            (C3_flit_size (Options.set_link_width_bits 64 garnet_options)
               (Network.new GarnetNetwork ruby0 "Crossbar")
               (Some GarnetNetworkInterface) eq_refl _)))) eq_refl).
  vm_compute. discriminate.
Defined.

(** ** The variant selector *)

(** C8.  [create_network] is a total function whose five classes depend on
    the family alone: for [garnet2.0] the Garnet network, internal link,
    external link, router and interface classes, for every other family the
    Simple network, link and router classes and no interface class; either
    way the network starts with empty routers, links and interfaces. *)
Theorem C8_variant_selector (o : Options.t) (ruby : RubySystem) :
  let '(network, IntLinkClass, ExtLinkClass, RouterClass, InterfaceClass) :=
    create_network o ruby in
  (Options.network o = "garnet2.0" ->
     Network.cls network = GarnetNetwork
     /\ IntLinkClass = GarnetIntLink /\ ExtLinkClass = GarnetExtLink
     /\ RouterClass = GarnetRouter
     /\ InterfaceClass = Some GarnetNetworkInterface)
  /\ (Options.network o <> "garnet2.0" ->
     Network.cls network = SimpleNetwork
     /\ IntLinkClass = SimpleIntLink /\ ExtLinkClass = SimpleExtLink
     /\ RouterClass = Switch
     /\ InterfaceClass = None)
  /\ Network.routers network = []
  /\ Network.int_links network = []
  /\ Network.ext_links network = []
  /\ Network.netifs network = []
  /\ Network.ruby_system network = ruby
  /\ Network.topology network = Options.topology o
  /\ forall o' ruby',
       Options.network o' = Options.network o ->
       let '(network', IntLinkClass', ExtLinkClass', RouterClass', InterfaceClass') :=
         create_network o' ruby' in
       Network.cls network' = Network.cls network
       /\ IntLinkClass' = IntLinkClass /\ ExtLinkClass' = ExtLinkClass
       /\ RouterClass' = RouterClass /\ InterfaceClass' = InterfaceClass.
Proof.
  unfold create_network.
  destruct (String.eqb (Options.network o) "garnet2.0") eqn:E; cbn.
  - apply String.eqb_eq in E.
    repeat split; try congruence.
    all: intros o' ruby' H; rewrite H, E; cbn; now repeat split.
  - pose proof E as E'. apply String.eqb_neq in E'.
    repeat split; try congruence; try (intros; exfalso; congruence).
    all: intros o' ruby' H; rewrite H, E; cbn; now repeat split.
Qed.

Lemma C8_variant_selector_witness :
  Network.cls (fst (fst (fst (fst (create_network garnet_options ruby0)))))
  = GarnetNetwork
  /\ snd (create_network default_options ruby0) = None.
Proof.
  split.
  - apply (C8_variant_selector garnet_options ruby0). reflexivity.
  - apply (C8_variant_selector default_options ruby0). discriminate.
Defined.


(** ** Values the interfaces take from the network *)

(** C9.  In a network assembled with the detailed family, the assembly
    having returned, every interface was built with its identifier only:
    [vcs_per_vnet] and [garnet_deadlock_threshold] are left at [Parent.x],
    so they evaluate to the values of the options, which are the network's
    own; any two interfaces agree with each other and with the network.
    There is one such interface per external link. *)
Theorem C9_interfaces_follow_network (o : Options.t) (ruby : RubySystem)
  (rs : list BasicRouter) (il : list BasicIntLink) (el : list BasicExtLink) :
  Options.network o = "garnet2.0" ->
  snd (assemble o ruby rs il el) = Returned ->
  let network := fst (assemble o ruby rs il el) in
  let vcs ni := unproxy network (NetworkInterface.vcs_per_vnet ni) in
  let threshold ni :=
    unproxy network (NetworkInterface.garnet_deadlock_threshold ni) in
  Network.get Attr.vcs_per_vnet network = Some (Options.vcs_per_vnet o)
  /\ Network.get Attr.garnet_deadlock_threshold network
     = Some (Options.garnet_deadlock_threshold o)
  /\ (forall ni, In ni (Network.netifs network) ->
        NetworkInterface.vcs_per_vnet ni = Parent Attr.vcs_per_vnet
        /\ NetworkInterface.garnet_deadlock_threshold ni
           = Parent Attr.garnet_deadlock_threshold
        /\ vcs ni = Some (Options.vcs_per_vnet o)
        /\ threshold ni = Some (Options.garnet_deadlock_threshold o)
        /\ vcs ni = Network.get Attr.vcs_per_vnet network
        /\ threshold ni = Network.get Attr.garnet_deadlock_threshold network)
  /\ (forall ni nj,
        In ni (Network.netifs network) -> In nj (Network.netifs network) ->
        vcs ni = vcs nj /\ threshold ni = threshold nj)
  /\ List.length (Network.netifs network) = List.length el.
Proof.
  intros G R network vcs threshold.
  pose proof (assemble_returned_garnet o ruby rs il el G R) as B.
  assert (N : Network.netifs network = interfaces_for GarnetNetworkInterface el).
  { unfold network. rewrite assemble_netifs, G, B. reflexivity. }
  assert (P : forall ni, In ni (Network.netifs network) ->
                NetworkInterface.vcs_per_vnet ni = Parent Attr.vcs_per_vnet
                /\ NetworkInterface.garnet_deadlock_threshold ni
                   = Parent Attr.garnet_deadlock_threshold).
  { intros ni I. rewrite N in I.
    apply interfaces_for_In in I as (i & _ & ->). now split. }
  assert (V : Network.get Attr.vcs_per_vnet network
              = Some (Options.vcs_per_vnet o))
    by (unfold network; now rewrite assemble_get by (trivial || discriminate)).
  assert (T : Network.get Attr.garnet_deadlock_threshold network
              = Some (Options.garnet_deadlock_threshold o))
    by (unfold network; now rewrite assemble_get by (trivial || discriminate)).
  split; [exact V | split; [exact T | split; [| split]]].
  - intros ni I. destruct (P ni I) as [Pv Pt].
    unfold vcs, threshold. rewrite Pv, Pt. cbn [unproxy].
    rewrite V, T. now repeat split.
  - intros ni nj I J.
    destruct (P ni I) as [Pv Pt]. destruct (P nj J) as [Pv' Pt'].
    unfold vcs, threshold. now rewrite Pv, Pt, Pv', Pt'.
  - rewrite N. apply interfaces_for_length.
Qed.

Lemma C9_interfaces_follow_network_witness :
  unproxy (fst (assemble seven_vcs_options ruby0 [] [] three_ext_links))
    (NetworkInterface.vcs_per_vnet
       (NetworkInterface.new GarnetNetworkInterface 1))
  = Some 7
  /\ unproxy (fst (assemble seven_vcs_options ruby0 [] [] three_ext_links))
       (NetworkInterface.garnet_deadlock_threshold
          (NetworkInterface.new GarnetNetworkInterface 1))
     = Some 500000.
Proof.
  destruct (C9_interfaces_follow_network
              seven_vcs_options ruby0 [] [] three_ext_links eq_refl eq_refl)
    as (_ & _ & H & _).
  destruct (H (NetworkInterface.new GarnetNetworkInterface 1))
    as (_ & _ & V & T & _).
  - cbn. tauto.
  - split; [exact V | exact T].
Defined.

(** ** The topology name *)

(** C10.  [init_network] does not write the topology name: line 173
    compares and drops the result.  The name after the call is the one
    before it, and for a network that [create_network] made it is the
    [topology] of the options [create_network] was given, whatever options
    [init_network] is given. *)
Theorem C10_topology_not_written (o : Options.t) (n : Network.t)
  (ic : option InterfaceClass) :
  Network.topology (fst (init_network o n ic)) = Network.topology n
  /\ forall o0 ruby rs il el,
       Network.topology
         (fst (init_network o
                 (populate rs il el
                    (fst (fst (fst (fst (create_network o0 ruby))))))
                 ic))
       = Options.topology o0.
Proof.
  split.
  - now destruct (init_network_structure o n ic) as (_ & _ & -> & _).
  - intros o0 ruby rs il el.
    destruct (init_network_structure o
                (populate rs il el
                   (fst (fst (fst (fst (create_network o0 ruby))))))
                ic)
      as (_ & _ & -> & _).
    unfold create_network.
    now destruct (String.eqb (Options.network o0) "garnet2.0").
Qed.


(** ** Checks

    The two files hold one check of their own, the assertion of line 200.
    The declared parameter types add theirs: a value out of the bounds of
    its parameter ends the run at that assignment.  Nothing else looks at a
    bound, at the router count or at the topology name, and no list of
    violations is built. *)

Lemma init_network_returns (o : Options.t) (n : Network.t)
  (ic : option InterfaceClass) :
  Options.network_fault_model o = false \/ Options.network o = "garnet2.0" ->
  (Options.network o = "garnet2.0" -> parameters_fit o = true) ->
  snd (init_network o n ic) = Returned.
Proof.
  intros H F. rewrite init_network_outcome.
  assert (B : block_completes o = true).
  { unfold block_completes.
    destruct (String.eqb (Options.network o) "garnet2.0") eqn:G;
      [| reflexivity].
    apply String.eqb_eq in G. now rewrite (F G). }
  rewrite B. destruct H as [-> | G]; [reflexivity |].
  rewrite G. now rewrite andb_false_r.
Qed.

Lemma unfit_raises (o : Options.t) (n : Network.t)
  (ic : option InterfaceClass) (x : Attr.t * Z) :
  Options.network o = "garnet2.0" ->
  In x (garnet_assignments o) ->
  fit x = false ->
  snd (init_network o n ic) = Raised TypeError.
Proof.
  intros G I F. rewrite init_network_outcome.
  rewrite (block_completes_garnet o G).
  destruct (parameters_fit o) eqn:P; [| reflexivity].
  unfold parameters_fit in P. rewrite forallb_forall in P.
  rewrite (P x I) in F. discriminate F.
Qed.

(** The fault-model toggle with the simplified family ends the run in the
    assertion: it is not reported as a violation the caller could collect
    with others. *)
Lemma C4_counterexample :
  Options.accepted simple_fault_options = true
  /\ Options.network_fault_model simple_fault_options = true
  /\ Options.network simple_fault_options = "simple"
  /\ snd (assemble simple_fault_options ruby0 [] [] three_ext_links)
     = Raised AssertionError.
Proof. repeat split. Qed.

(** C4, as the code has it.  With the fault-model toggle set and a family
    other than [garnet2.0], the simplified one in particular,
    [init_network] stops in the assertion of line 200 with
    [AssertionError], and the fault-model fields of the network are left as
    they were. *)
Theorem C4_fault_model_assertion (o : Options.t) (n : Network.t)
  (ic : option InterfaceClass) :
  Options.network_fault_model o = true ->
  Options.network o <> "garnet2.0" ->
  snd (init_network o n ic) = Raised AssertionError
  /\ Network.enable_fault_model (fst (init_network o n ic))
     = Network.enable_fault_model n
  /\ Network.fault_model (fst (init_network o n ic)) = Network.fault_model n.
Proof.
  intros F G. pose proof (block_completes_other o G) as B.
  apply String.eqb_neq in G.
  split.
  - rewrite init_network_outcome. now rewrite B, F, G.
  - destruct (init_network_fault_fields o n ic) as [-> ->].
    rewrite G, andb_false_r, andb_false_r. now split.
Qed.

Lemma C4_fault_model_assertion_witness :
  snd (init_network simple_fault_options
         (Network.new SimpleNetwork ruby0 "Crossbar") None)
  = Raised AssertionError.
Proof.
  apply (C4_fault_model_assertion simple_fault_options
           (Network.new SimpleNetwork ruby0 "Crossbar") None eq_refl).
  discriminate.
Defined.




(** Three rows do not divide ten routers, and the run returns. *)
Lemma C6_counterexample :
  Options.accepted (mesh_options 3) = true
  /\ 0 < Options.mesh_rows (mesh_options 3)
  /\ List.length (Network.routers (ten_router_network "Mesh")) = 10%nat
  /\ 10 mod Options.mesh_rows (mesh_options 3) <> 0
  /\ snd (init_network (mesh_options 3) (ten_router_network "Mesh")
            (Some GarnetNetworkInterface))
     = Returned
  /\ Network.get Attr.num_rows
       (fst (init_network (mesh_options 3) (ten_router_network "Mesh")
               (Some GarnetNetworkInterface)))
     = Some 3
  /\ List.length
       (Network.routers
          (fst (init_network (mesh_options 3) (ten_router_network "Mesh")
                  (Some GarnetNetworkInterface))))
     = 10%nat.
Proof. repeat split. discriminate. Qed.

(** C6, as the code has it.  [init_network] never compares the mesh row
    count with the router count.  On a network with any number of routers,
    and unless a copied value is out of the bounds of its parameter or the
    fault-model assertion fires, it returns whether or not the rows divide
    the number of routers; it leaves the routers as they are and, with the
    detailed family, stores the row count as given.  On ten routers two
    rows pass, and so do three. *)
Theorem C6_no_divisibility_check (o : Options.t) (n : Network.t)
  (ic : option InterfaceClass) :
  Options.network_fault_model o = false \/ Options.network o = "garnet2.0" ->
  (Options.network o = "garnet2.0" -> parameters_fit o = true) ->
  snd (init_network o n ic) = Returned
  /\ Network.routers (fst (init_network o n ic)) = Network.routers n
  /\ (Options.network o = "garnet2.0" ->
      Network.get Attr.num_rows (fst (init_network o n ic))
      = Some (Options.mesh_rows o))
  /\ snd (init_network (mesh_options 2) (ten_router_network "Mesh") ic)
     = Returned
  /\ snd (init_network (mesh_options 3) (ten_router_network "Mesh") ic)
     = Returned.
Proof.
  intros H F.
  split; [now apply init_network_returns |].
  split; [now destruct (init_network_structure o n ic) as (_ & _ & _ & -> & _) |].
  split.
  - intros G. pose proof (F G) as B.
    rewrite <- (block_completes_garnet o G) in B.
    now rewrite init_network_get_garnet by (trivial || discriminate).
  - split; (apply init_network_returns; [now left | reflexivity]).
Qed.

Lemma C6_no_divisibility_check_witness :
  snd (init_network (mesh_options 3) (ten_router_network "Mesh")
         (Some GarnetNetworkInterface))
  = Returned.
Proof.
  refine (proj1 (C6_no_divisibility_check (mesh_options 3)
                   (ten_router_network "Mesh")
                   (Some GarnetNetworkInterface) _ _)).
  - right. reflexivity.
  - intros _. reflexivity.
Defined.

(** The escape VC on a torus, and the run returns with the toggle stored. *)
Lemma C7_counterexample :
  let network :=
    fst (fst (fst (fst (create_network (escape_vc_options "Torus") ruby0)))) in
  let r := init_network (escape_vc_options "Torus") network
             (Some GarnetNetworkInterface) in
  Options.accepted (escape_vc_options "Torus") = true
  /\ Options.enable_escape_vc (escape_vc_options "Torus") = 1
  /\ Options.topology (escape_vc_options "Torus") = "Torus"
  /\ Network.topology network = "Torus"
  /\ snd r = Returned
  /\ Network.topology (fst r) = "Torus"
  /\ Network.get Attr.enable_escape_vc (fst r) = Some 1.
Proof. repeat split. Qed.

(** C7, as the code has it.  [init_network] never compares the topology
    name with a set of mesh-like names.  Unless a copied value is out of the
    bounds of its parameter or the fault-model assertion fires, it returns
    for every topology name, of the options and of the network, and for
    every value of the escape-VC toggle the parameter admits, which the
    detailed family stores as given; the topology name of the network stays
    what it was.  With the escape VC enabled [Mesh] passes, and so does
    [Torus]. *)
Theorem C7_no_topology_check (o : Options.t) (n : Network.t)
  (ic : option InterfaceClass) :
  Options.network_fault_model o = false \/ Options.network o = "garnet2.0" ->
  (Options.network o = "garnet2.0" -> parameters_fit o = true) ->
  snd (init_network o n ic) = Returned
  /\ Network.topology (fst (init_network o n ic)) = Network.topology n
  /\ (Options.network o = "garnet2.0" ->
      Network.get Attr.enable_escape_vc (fst (init_network o n ic))
      = Some (Options.enable_escape_vc o)
      /\ 0 <= Options.enable_escape_vc o <= 4294967295)
  /\ snd (init_network (escape_vc_options "Mesh")
            (fst (fst (fst (fst (create_network (escape_vc_options "Mesh")
                                   (Network.ruby_system n))))))
            ic)
     = Returned
  /\ snd (init_network (escape_vc_options "Torus")
            (fst (fst (fst (fst (create_network (escape_vc_options "Torus")
                                   (Network.ruby_system n))))))
            ic)
     = Returned.
Proof.
  intros H F.
  split; [now apply init_network_returns |].
  split; [now destruct (init_network_structure o n ic) as (_ & _ & -> & _) |].
  split.
  - intros G. pose proof (F G) as P.
    split.
    + rewrite <- (block_completes_garnet o G) in P.
      now rewrite init_network_get_garnet by (trivial || discriminate).
    + unfold parameters_fit in P. rewrite forallb_forall in P.
      apply fits_UInt32.
      apply (P (Attr.enable_escape_vc, Options.enable_escape_vc o)).
      cbn. tauto.
  - split; (apply init_network_returns; [now left | reflexivity]).
Qed.

Lemma C7_no_topology_check_witness :
  snd (init_network (escape_vc_options "Torus") (ten_router_network "Torus")
         (Some GarnetNetworkInterface))
  = Returned.
Proof.
  refine (proj1 (C7_no_topology_check (escape_vc_options "Torus")
                   (ten_router_network "Torus")
                   (Some GarnetNetworkInterface) _ _)).
  - right. reflexivity.
  - intros _. reflexivity.
Defined.

(** * Further properties of [init_network] *)

(** X1.  [init_network] leaves the class, the Ruby system, the routers and
    both link lists of the network as they were; after [assemble] they are
    what the selector and the structural builder put there. *)
Theorem X1_collections_untouched (o : Options.t) (n : Network.t)
  (ic : option InterfaceClass) (ruby : RubySystem)
  (rs : list BasicRouter) (il : list BasicIntLink) (el : list BasicExtLink) :
  (Network.cls (fst (init_network o n ic)) = Network.cls n
   /\ Network.ruby_system (fst (init_network o n ic)) = Network.ruby_system n
   /\ Network.routers (fst (init_network o n ic)) = Network.routers n
   /\ Network.int_links (fst (init_network o n ic)) = Network.int_links n
   /\ Network.ext_links (fst (init_network o n ic)) = Network.ext_links n)
  /\ (Network.ruby_system (fst (assemble o ruby rs il el)) = ruby
      /\ Network.routers (fst (assemble o ruby rs il el)) = rs
      /\ Network.int_links (fst (assemble o ruby rs il el)) = il
      /\ Network.ext_links (fst (assemble o ruby rs il el)) = el).
Proof.
  split.
  - destruct (init_network_structure o n ic) as (a & b & _ & c & d & e).
    now repeat split.
  - rewrite assemble_unfold.
    destruct (init_network_structure o
                (populate rs il el
                   (fst (fst (fst (fst (create_network o ruby))))))
                (snd (create_network o ruby)))
      as (_ & -> & _ & -> & -> & ->).
    unfold create_network.
    now destruct (String.eqb (Options.network o) "garnet2.0").
Qed.


(** X2.  Apart from [routing_algorithm], the integer parameters after
    [init_network] are: with the detailed family, when every copied value
    is within the bounds of its parameter, the sixteen values lines 160-176
    copy from the options, the others as before; with any other family
    every one of them as before.  When a value is out of bounds each
    parameter holds the option's value or is as before. *)
Theorem X2_parameters_copied (o : Options.t) (n : Network.t)
  (ic : option InterfaceClass) (a : Attr.t) :
  a <> Attr.routing_algorithm ->
  (Options.network o = "garnet2.0" ->
   parameters_fit o = true ->
   Network.get a (fst (init_network o n ic)) = garnet_parameter o n a)
  /\ (Options.network o <> "garnet2.0" ->
      Network.get a (fst (init_network o n ic)) = Network.get a n)
  /\ (Network.get a (fst (init_network o n ic)) = garnet_parameter o n a
      \/ Network.get a (fst (init_network o n ic)) = Network.get a n).
Proof.
  intros ne. split; [| split].
  - intros G P. rewrite <- (block_completes_garnet o G) in P.
    now apply init_network_get_garnet.
  - intros G. now apply init_network_get_other.
  - rewrite init_network_get by exact ne. rewrite stores_get.
    destruct (assigned a (copied o)) as [v |] eqn:A; [left | now right].
    unfold copied in A.
    destruct (String.eqb (Options.network o) "garnet2.0"); [| discriminate A].
    apply assigned_prefix in A as [I _].
    cbn in I.
    repeat (destruct I as [I | I]; [injection I as <- <-; reflexivity |]).
    destruct I.
Qed.

Lemma X2_parameters_copied_witness :
  Network.get Attr.vcs_per_vnet
    (fst (init_network seven_vcs_options
            (Network.new GarnetNetwork ruby0 "Mesh")
            (Some GarnetNetworkInterface)))
  = Some 7.
Proof.
  refine (proj1 (X2_parameters_copied seven_vcs_options
                   (Network.new GarnetNetwork ruby0 "Mesh")
                   (Some GarnetNetworkInterface) Attr.vcs_per_vnet _) _ _).
  - discriminate.
  - reflexivity.
  - reflexivity.
Defined.

(** X3.  The option [dfly_group_size] never reaches the network:
    [init_network] leaves the parameter of that name as it was, so a
    network assembled with the detailed family holds the class default 4
    whatever the option says. *)
Theorem X3_dfly_group_size_not_propagated (o : Options.t) (n : Network.t)
  (ic : option InterfaceClass) (ruby : RubySystem)
  (rs : list BasicRouter) (il : list BasicIntLink) (el : list BasicExtLink) :
  Network.get Attr.dfly_group_size (fst (init_network o n ic))
  = Network.get Attr.dfly_group_size n
  /\ (Options.network o = "garnet2.0" ->
      Network.get Attr.dfly_group_size (fst (assemble o ruby rs il el))
      = Some 4).
Proof.
  assert (K : forall m,
             Network.get Attr.dfly_group_size (fst (init_network o m ic))
             = Network.get Attr.dfly_group_size m).
  { intros m. rewrite init_network_get by discriminate. rewrite stores_get.
    destruct (assigned Attr.dfly_group_size (copied o)) as [v |] eqn:A;
      [| reflexivity].
    unfold copied in A.
    destruct (String.eqb (Options.network o) "garnet2.0"); [| discriminate A].
    apply assigned_prefix in A as [I _]. cbn in I.
    repeat (destruct I as [I | I]; [discriminate I |]). destruct I. }
  split; [apply K |].
  intros G. rewrite assemble_unfold.
  assert (K' : forall c,
             Network.get Attr.dfly_group_size
               (fst (init_network o
                       (populate rs il el
                          (fst (fst (fst (fst (create_network o ruby))))))
                       c))
             = Some 4).
  { intros c. rewrite init_network_get by discriminate. rewrite stores_get.
    destruct (assigned Attr.dfly_group_size (copied o)) as [v |] eqn:A.
    - unfold copied in A.
      destruct (String.eqb (Options.network o) "garnet2.0");
        [| discriminate A].
      apply assigned_prefix in A as [I _]. cbn in I.
      repeat (destruct I as [I | I]; [discriminate I |]). destruct I.
    - unfold create_network. rewrite G. reflexivity. }
  apply K'.
Qed.

Lemma X3_dfly_group_size_not_propagated_witness :
  Options.dfly_group_size garnet_options_elsewhere = 16
  /\ Network.get Attr.dfly_group_size
       (fst (assemble garnet_options_elsewhere ruby0 [] [] three_ext_links))
     = Some 4.
Proof.
  split; [reflexivity |].
  refine (proj2 (X3_dfly_group_size_not_propagated garnet_options_elsewhere
                   (Network.new GarnetNetwork ruby0 "Mesh") None
                   ruby0 [] [] three_ext_links) eq_refl).
Defined.

(** X4.  [init_network] does not depend on the options [topology],
    [router_latency], [link_latency], [fbfly_rows], [fbfly_cols] and
    [dfly_group_size]: two option sets that agree on the other nineteen
    give the same network and the same outcome. *)
Theorem X4_unused_options (o o' : Options.t) (n : Network.t)
  (ic : option InterfaceClass) :
  agree_on_used o o' ->
  init_network o' n ic = init_network o n ic.
Proof.
  unfold agree_on_used. destruct o, o'; cbn.
  intros H. decompose [and] H; clear H. subst. reflexivity.
Qed.

Lemma X4_unused_options_witness :
  init_network garnet_options_elsewhere
    (Network.new GarnetNetwork ruby0 "Mesh") (Some GarnetNetworkInterface)
  = init_network garnet_options
      (Network.new GarnetNetwork ruby0 "Mesh") (Some GarnetNetworkInterface).
Proof.
  apply (X4_unused_options garnet_options garnet_options_elsewhere).
  unfold agree_on_used. repeat split.
Defined.

(** X5.  With a family other than [garnet2.0], [init_network] depends on
    three options only: the family name, the routing-algorithm name and the
    fault-model toggle. *)
Theorem X5_simple_family_reads_three_options (o o' : Options.t)
  (n : Network.t) (ic : option InterfaceClass) :
  Options.network o <> "garnet2.0" ->
  Options.network o' = Options.network o ->
  Options.routing_algorithm o' = Options.routing_algorithm o ->
  Options.network_fault_model o' = Options.network_fault_model o ->
  init_network o' n ic = init_network o n ic.
Proof.
  intros G N R F. apply String.eqb_neq in G.
  unfold init_network, init_garnet_parameters, init_routing_algorithm,
    init_buffers, init_fault_model.
  now rewrite N, R, F, G.
Qed.

Lemma X5_simple_family_reads_three_options_witness :
  init_network (Options.set_vcs_per_vnet 9 (Options.set_mesh_rows 3 default_options))
    (Network.new SimpleNetwork ruby0 "Crossbar") None
  = init_network default_options
      (Network.new SimpleNetwork ruby0 "Crossbar") None.
Proof.
  apply (X5_simple_family_reads_three_options default_options
           (Options.set_vcs_per_vnet 9 (Options.set_mesh_rows 3 default_options)));
    first [reflexivity | cbn; discriminate].
Defined.

(** X6.  The assertion of line 200 comes after every other assignment: when
    it fails, the network is exactly the one a run of the same options
    without the fault-model toggle returns, and that run does return. *)
Theorem X6_assertion_after_assignments (o o' : Options.t) (n : Network.t)
  (ic : option InterfaceClass) :
  Options.network_fault_model o = true ->
  Options.network o <> "garnet2.0" ->
  Options.network o' = Options.network o ->
  Options.routing_algorithm o' = Options.routing_algorithm o ->
  Options.network_fault_model o' = false ->
  init_network o n ic = (fst (init_network o' n ic), Raised AssertionError)
  /\ snd (init_network o' n ic) = Returned.
Proof.
  intros F G N R F'.
  assert (G' : Options.network o' <> "garnet2.0") by now rewrite N.
  rewrite !init_network_eq.
  rewrite (block_completes_other o G), (block_completes_other o' G').
  rewrite (copied_other o G), (copied_other o' G').
  apply String.eqb_neq in G.
  unfold init_fault_model, init_buffers.
  rewrite N, R, F, F', G. now split.
Qed.

Lemma X6_assertion_after_assignments_witness :
  init_network simple_fault_options
    (Network.new SimpleNetwork ruby0 "Crossbar") None
  = (fst (init_network default_options
            (Network.new SimpleNetwork ruby0 "Crossbar") None),
     Raised AssertionError).
Proof.
  apply (X6_assertion_after_assignments simple_fault_options default_options);
    first [reflexivity | cbn; discriminate].
Defined.


(** X7.  [init_network] keeps the fault-model flag and the attached fault
    model in step: if the flag is set exactly when a model is attached
    before the call, it is so after it.  A network fresh from [assemble]
    has both exactly when the toggle is set, the family is [garnet2.0] and
    every copied value is within the bounds of its parameter. *)
Theorem X7_fault_model_fields_in_step (o : Options.t) (n : Network.t)
  (ic : option InterfaceClass) (ruby : RubySystem)
  (rs : list BasicRouter) (il : list BasicIntLink) (el : list BasicExtLink) :
  (fault_model_consistent n ->
   fault_model_consistent (fst (init_network o n ic)))
  /\ fault_model_consistent (fst (assemble o ruby rs il el))
  /\ (Network.enable_fault_model (fst (assemble o ruby rs il el)) = true <->
      Options.network_fault_model o = true
      /\ Options.network o = "garnet2.0"
      /\ parameters_fit o = true).
Proof.
  set (fired := block_completes o
                && (Options.network_fault_model o
                    && String.eqb (Options.network o) "garnet2.0")).
  assert (A : Network.enable_fault_model (fst (assemble o ruby rs il el))
              = fired
              /\ Network.fault_model (fst (assemble o ruby rs il el))
                 = if fired then Some FaultModel_new else None).
  { rewrite assemble_unfold.
    destruct (init_network_fault_fields o
                (populate rs il el
                   (fst (fst (fst (fst (create_network o ruby))))))
                (snd (create_network o ruby))) as [-> ->].
    fold fired. unfold create_network.
    destruct fired, (String.eqb (Options.network o) "garnet2.0"); now split. }
  destruct A as [E F].
  split; [| split].
  - unfold fault_model_consistent.
    destruct (init_network_fault_fields o n ic) as [-> ->]. fold fired.
    destruct fired; [split; [discriminate | reflexivity] | trivial].
  - unfold fault_model_consistent. rewrite E, F.
    destruct fired; split; congruence.
  - rewrite E. unfold fired, block_completes.
    destruct (String.eqb (Options.network o) "garnet2.0") eqn:G.
    + apply String.eqb_eq in G.
      destruct (parameters_fit o), (Options.network_fault_model o); cbn;
        split; intuition congruence.
    + apply String.eqb_neq in G.
      destruct (parameters_fit o), (Options.network_fault_model o); cbn;
        split; intuition congruence.
Qed.

Lemma X7_fault_model_fields_in_step_witness :
  fault_model_consistent
    (fst (init_network (Options.set_network_fault_model true garnet_options)
            (Network.new GarnetNetwork ruby0 "Mesh")
            (Some GarnetNetworkInterface))).
Proof.
  refine (proj1 (X7_fault_model_fields_in_step
                   (Options.set_network_fault_model true garnet_options)
                   (Network.new GarnetNetwork ruby0 "Mesh")
                   (Some GarnetNetworkInterface) ruby0 [] [] []) _).
  unfold fault_model_consistent; cbn. split; [discriminate | congruence].
Defined.

Lemma stores_twice (l : list (Attr.t * Z)) (a : Attr.t) (n : Network.t) :
  Network.get a (stores l (stores l n)) = Network.get a (stores l n).
Proof.
  rewrite (stores_get l a (stores l n)), (stores_get l a n).
  now destruct (assigned a l).
Qed.

Lemma init_network_get_again (o : Options.t) (n : Network.t)
  (ic : option InterfaceClass) (a : Attr.t) :
  Network.get a (fst (init_network o (fst (init_network o n ic)) ic))
  = Network.get a (fst (init_network o n ic)).
Proof.
  destruct (block_completes o) eqn:B.
  - destruct (Attr.eq_dec a Attr.routing_algorithm) as [-> | ne].
    + now rewrite !init_network_stored_id.
    + rewrite (init_network_get o (fst (init_network o n ic)) ic a ne).
      rewrite (stores_get (copied o) a (fst (init_network o n ic))).
      rewrite (init_network_get o n ic a ne).
      rewrite (stores_get (copied o) a n).
      now destruct (assigned a (copied o)).
  - assert (E : forall m, fst (init_network o m ic) = stores (copied o) m)
      by (intros m; now rewrite init_network_eq, B).
    rewrite !E. apply stores_twice.
Qed.

(** X8.  [init_network] is idempotent: a second run with the same options
    and interface class on the network the first run left changes no field
    and no parameter, and ends the same way. *)
Theorem X8_init_network_idempotent (o : Options.t) (n : Network.t)
  (ic : option InterfaceClass) :
  same_network (fst (init_network o n ic))
    (fst (init_network o (fst (init_network o n ic)) ic))
  /\ snd (init_network o (fst (init_network o n ic)) ic)
     = snd (init_network o n ic).
Proof.
  split; [| now rewrite !init_network_outcome].
  unfold same_network.
  split; [apply init_network_structure |].
  split.
  { rewrite (init_network_netifs o (fst (init_network o n ic)) ic).
    destruct (block_completes o) eqn:B; [| reflexivity].
    destruct ic as [c |]; [| reflexivity].
    rewrite (init_network_netifs o n (Some c)), B.
    now destruct (init_network_structure o n (Some c))
      as (_ & _ & _ & _ & -> & _). }
  split; [intros a; apply init_network_get_again |].
  destruct (init_network_fault_fields o (fst (init_network o n ic)) ic)
    as [E F].
  destruct (init_network_fault_fields o n ic) as [E' F'].
  rewrite E, F.
  rewrite (init_network_buffers o (fst (init_network o n ic)) ic).
  rewrite (init_network_buffers o n ic).
  destruct (block_completes o
            && (Options.network_fault_model o
                && String.eqb (Options.network o) "garnet2.0")) eqn:T.
  - rewrite E', F'. repeat split.
    now destruct (String.eqb (Options.network o) "simple"),
      (Network.buffers_set_up n).
  - repeat split.
    now destruct (String.eqb (Options.network o) "simple"),
      (Network.buffers_set_up n).
Qed.

(** X9.  Whether interfaces are built depends on the interface class
    alone, not on the family name.  Given a class, and unless an assignment
    out of bounds ended the run before line 194, the interfaces replace
    whatever the network held: their identifiers are 0, 1, 2, ... in the
    order of the external links, pairwise distinct and below the number of
    links, and no link gives no interface.  Given no class, or when the run
    ended before, the interface list is left as it was. *)
Theorem X9_interface_identifiers (o : Options.t) (n : Network.t)
  (ic : option InterfaceClass) :
  let netifs := Network.netifs (fst (init_network o n ic)) in
  (ic <> None ->
   snd (init_network o n ic) <> Raised TypeError ->
   map NetworkInterface.id netifs
   = map Z.of_nat (seq 0 (List.length (Network.ext_links n)))
   /\ NoDup (map NetworkInterface.id netifs)
   /\ (forall ni, In ni netifs ->
         0 <= NetworkInterface.id ni
              < Z.of_nat (List.length (Network.ext_links n)))
   /\ (Network.ext_links n = [] -> netifs = []))
  /\ (ic = None -> netifs = Network.netifs n)
  /\ (snd (init_network o n ic) = Raised TypeError ->
      netifs = Network.netifs n).
Proof.
  intros netifs. unfold netifs. rewrite init_network_netifs.
  split; [| split].
  - destruct ic as [c |]; [intros _ | intros H; now destruct H].
    intros H. apply not_TypeError in H. rewrite H.
    assert (I : map NetworkInterface.id (interfaces_for c (Network.ext_links n))
                = map Z.of_nat (seq 0 (List.length (Network.ext_links n))))
      by apply interfaces_for_ids.
    split; [exact I | split; [| split]].
    + rewrite I. apply NoDup_map_of_nat, seq_NoDup.
    + intros ni H'. apply (in_map NetworkInterface.id) in H'.
      rewrite I in H'. apply in_map_iff in H' as (i & <- & H').
      apply in_seq in H'. lia.
    + intros E. now rewrite E.
  - intros ->. now destruct (block_completes o).
  - intros H. rewrite init_network_outcome in H.
    destruct (block_completes o); [| reflexivity].
    destruct (Options.network_fault_model o
              && negb (String.eqb (Options.network o) "garnet2.0"));
      discriminate H.
Qed.

Lemma X9_interface_identifiers_witness :
  map NetworkInterface.id
    (Network.netifs
       (fst (init_network default_options
               (populate [] [] three_ext_links
                  (Network.new SimpleNetwork ruby0 "Crossbar"))
               (Some GarnetNetworkInterface))))
  = [0; 1; 2].
Proof.
  refine (proj1 (proj1 (X9_interface_identifiers default_options
                          (populate [] [] three_ext_links
                             (Network.new SimpleNetwork ruby0 "Crossbar"))
                          (Some GarnetNetworkInterface)) _ _)).
  - discriminate.
  - vm_compute. discriminate.
Defined.

(** X10.  With the detailed family the flit size is the link width rounded
    down to whole bytes, within 32 bits: when the run is not ended by an
    assignment out of bounds, eight times the flit size is at most the
    width and misses it by fewer than 8 bits, exactly when the width is not
    a multiple of 8, and a width from 0 to 7 gives the flit size 0.  A
    negative width, or one of 2^35 or more, ends the run with [TypeError]
    and leaves the flit size as it was. *)
Theorem X10_flit_size_rounds_down (o : Options.t) (n : Network.t)
  (ic : option InterfaceClass) :
  Options.network o = "garnet2.0" ->
  (snd (init_network o n ic) <> Raised TypeError ->
   exists flit,
     Network.get Attr.ni_flit_size (fst (init_network o n ic)) = Some flit
     /\ 8 * flit <= Options.link_width_bits o < 8 * flit + 8
     /\ (8 * flit = Options.link_width_bits o <->
         Options.link_width_bits o mod 8 = 0)
     /\ 0 <= flit <= 4294967295
     /\ (flit = 0 <-> Options.link_width_bits o < 8))
  /\ (Options.link_width_bits o < 0
      \/ 34359738368 <= Options.link_width_bits o ->
      snd (init_network o n ic) = Raised TypeError
      /\ Network.get Attr.ni_flit_size (fst (init_network o n ic))
         = Network.get Attr.ni_flit_size n).
Proof.
  intros G.
  pose proof (Z.div_mod (Options.link_width_bits o) 8 ltac:(lia)) as D.
  pose proof (Z.mod_pos_bound (Options.link_width_bits o) 8 ltac:(lia)) as M.
  split.
  - intros H. apply not_TypeError in H.
    exists (Options.link_width_bits o / 8).
    split; [now rewrite init_network_get_garnet by (trivial || discriminate) |].
    assert (B : 0 <= Options.link_width_bits o / 8 <= 4294967295).
    { rewrite (block_completes_garnet o G) in H.
      unfold parameters_fit in H. rewrite forallb_forall in H.
      apply fits_UInt32.
      apply (H (Attr.ni_flit_size, Options.link_width_bits o / 8)).
      cbn. tauto. }
    repeat split; lia.
  - intros W.
    assert (F : fit (Attr.ni_flit_size, Options.link_width_bits o / 8) = false).
    { unfold fit; cbn [fst snd Attr.type].
      destruct (Attr.fits Attr.UInt32 (Options.link_width_bits o / 8)) eqn:E;
        [| reflexivity].
      apply fits_UInt32 in E. lia. }
    split.
    + apply (unfit_raises o n ic
               (Attr.ni_flit_size, Options.link_width_bits o / 8) G);
        [cbn; tauto | exact F].
    + rewrite init_network_get by discriminate. rewrite stores_get.
      destruct (assigned Attr.ni_flit_size (copied o)) as [v |] eqn:A;
        [| reflexivity].
      unfold copied in A.
      destruct (String.eqb (Options.network o) "garnet2.0");
        [| discriminate A].
      apply assigned_prefix in A as [I F']. cbn in I.
      repeat (destruct I as [I | I];
              [first [discriminate I
                     | injection I as <-; rewrite F in F'; discriminate F'] |]).
      destruct I.
Qed.

Lemma X10_flit_size_rounds_down_witness :
  (exists flit,
      Network.get Attr.ni_flit_size
        (fst (init_network (Options.set_link_width_bits 7 garnet_options)
                (Network.new GarnetNetwork ruby0 "Mesh")
                (Some GarnetNetworkInterface)))
      = Some flit
      /\ flit = 0)
  /\ snd (init_network (Options.set_link_width_bits (-8) garnet_options)
            (Network.new GarnetNetwork ruby0 "Mesh")
            (Some GarnetNetworkInterface))
     = Raised TypeError.
Proof.
  split.
  - destruct (proj1 (X10_flit_size_rounds_down
                       (Options.set_link_width_bits 7 garnet_options)
                       (Network.new GarnetNetwork ruby0 "Mesh")
                       (Some GarnetNetworkInterface) eq_refl))
      as (flit & E & _ & _ & _ & Z).
    + vm_compute. discriminate.
    + exists flit. split; [exact E |]. apply Z. cbn. lia.
  - refine (proj1 (proj2 (X10_flit_size_rounds_down
                            (Options.set_link_width_bits (-8) garnet_options)
                            (Network.new GarnetNetwork ruby0 "Mesh")
                            (Some GarnetNetworkInterface) eq_refl) _)).
    left. cbn. lia.
Defined.

(** X11.  Unless an assignment out of bounds ended the run before line
    178, the identifier stored for a routing-algorithm name lies between 0
    and 4 whatever the name.  On the six names the option accepts the
    encoding is one-to-one except for [turn_model], which gets the
    identifier of [table]: two accepted names with the same identifier are
    equal or are these two. *)
Theorem X11_routing_identifier_range_and_collision (o o' : Options.t)
  (n n' : Network.t) (ic ic' : option InterfaceClass) :
  snd (init_network o n ic) <> Raised TypeError ->
  snd (init_network o' n' ic') <> Raised TypeError ->
  (exists k,
      Network.get Attr.routing_algorithm (fst (init_network o n ic)) = Some k
      /\ 0 <= k <= 4)
  /\ (In (Options.routing_algorithm o) Options.routing_algorithm_choices ->
      In (Options.routing_algorithm o') Options.routing_algorithm_choices ->
      Network.get Attr.routing_algorithm (fst (init_network o n ic))
      = Network.get Attr.routing_algorithm (fst (init_network o' n' ic')) ->
      Options.routing_algorithm o = Options.routing_algorithm o'
      \/ (In (Options.routing_algorithm o) ["table"; "turn_model"]
          /\ In (Options.routing_algorithm o') ["table"; "turn_model"])).
Proof.
  intros H H'. apply not_TypeError in H. apply not_TypeError in H'.
  rewrite (init_network_stored_id o n ic H).
  rewrite (init_network_stored_id o' n' ic' H').
  split.
  - eexists. split; [reflexivity | apply documented_id_range].
  - generalize (Options.routing_algorithm o), (Options.routing_algorithm o').
    intros a b A B E.
    cbn in A, B.
    repeat (destruct A as [A | A]; [subst a |]); try contradiction;
      repeat (destruct B as [B | B]; [subst b |]); try contradiction;
      cbn in E; try discriminate E; cbn; tauto.
Qed.

Lemma X11_routing_identifier_range_and_collision_witness :
  Options.routing_algorithm (Options.set_routing_algorithm "turn_model" garnet_options)
  = Options.routing_algorithm garnet_options
  \/ (In (Options.routing_algorithm
            (Options.set_routing_algorithm "turn_model" garnet_options))
         ["table"; "turn_model"]
      /\ In (Options.routing_algorithm garnet_options) ["table"; "turn_model"]).
Proof.
  refine (proj2 (X11_routing_identifier_range_and_collision
                   (Options.set_routing_algorithm "turn_model" garnet_options)
                   garnet_options
                   (Network.new GarnetNetwork ruby0 "Mesh")
                   (Network.new GarnetNetwork ruby0 "Mesh")
                   None None _ _) _ _ _).
  - vm_compute. discriminate.
  - vm_compute. discriminate.
  - cbn. tauto.
  - cbn. tauto.
  - reflexivity.
Defined.

(** X12.  [init_network] sets up buffers exactly when the family name is
    [simple].  For the two names the option accepts this is exactly when
    [create_network] chose [SimpleNetwork]; for any other name
    [create_network] still chooses [SimpleNetwork], and [init_network]
    neither copies the Garnet parameters, which stay as the network was
    created with, nor sets up buffers. *)
Theorem X12_buffers_and_family (o : Options.t) (ruby : RubySystem)
  (rs : list BasicRouter) (il : list BasicIntLink) (el : list BasicExtLink) :
  let network := fst (assemble o ruby rs il el) in
  Network.buffers_set_up network = String.eqb (Options.network o) "simple"
  /\ (In (Options.network o) Options.network_choices ->
      (Network.buffers_set_up network = true <->
       Network.cls network = SimpleNetwork))
  /\ (~ In (Options.network o) Options.network_choices ->
      Network.cls network = SimpleNetwork
      /\ Network.buffers_set_up network = false
      /\ forall a, a <> Attr.routing_algorithm ->
           Network.get a network
           = Network.get a (fst (fst (fst (fst (create_network o ruby)))))).
Proof.
  intros network.
  assert (B : Network.buffers_set_up network
              = String.eqb (Options.network o) "simple").
  { unfold network. rewrite assemble_unfold, init_network_buffers.
    unfold create_network.
    destruct (String.eqb (Options.network o) "garnet2.0"); cbn;
      now rewrite orb_false_r. }
  assert (C : Network.cls network
              = if String.eqb (Options.network o) "garnet2.0"
                then GarnetNetwork else SimpleNetwork).
  { unfold network. rewrite assemble_unfold.
    destruct (init_network_structure o
                (populate rs il el
                   (fst (fst (fst (fst (create_network o ruby))))))
                (snd (create_network o ruby))) as (-> & _).
    unfold create_network.
    now destruct (String.eqb (Options.network o) "garnet2.0"). }
  split; [exact B | split].
  - intros I. rewrite B, C. cbn in I.
    destruct I as [<- | [<- | []]]; cbn; split; congruence.
  - intros I. cbn in I.
    assert (G : Options.network o <> "garnet2.0") by (intros E; apply I; auto).
    assert (S : Options.network o <> "simple") by (intros E; apply I; auto).
    rewrite B, C.
    apply String.eqb_neq in S. rewrite S.
    pose proof G as G'. apply String.eqb_neq in G'. rewrite G'.
    repeat split.
    intros a ne. unfold network. rewrite assemble_unfold.
    rewrite init_network_get_other by assumption.
    reflexivity.
Qed.

Lemma X12_buffers_and_family_witness :
  Network.buffers_set_up
    (fst (assemble (Options.set_network "garnet" default_options)
            ruby0 [] [] three_ext_links)) = false.
Proof.
  refine (proj1 (proj2 (proj2 (proj2
            (X12_buffers_and_family (Options.set_network "garnet" default_options)
               ruby0 [] [] three_ext_links)) _))).
  cbn. intros [H | [H | []]]; discriminate H.
Defined.

(** * Routers and interfaces *)

(** X13.  In a network assembled with the detailed family, the assembly
    having returned, a router of the class [create_network] returned that
    was constructed without a value for [vcs_per_vnet], and every interface
    [init_network] built, get the same number of virtual channels per
    virtual network: the one of the options, a value of 32 bits. *)
Theorem X13_routers_and_interfaces_agree (o : Options.t) (ruby : RubySystem)
  (rs : list BasicRouter) (il : list BasicIntLink) (el : list BasicExtLink)
  (r : Router.t) (ni : NetworkInterface.t) :
  Options.network o = "garnet2.0" ->
  snd (assemble o ruby rs il el) = Returned ->
  let network := fst (assemble o ruby rs il el) in
  Router.new (snd (fst (create_network o ruby))) = Some r ->
  In ni (Network.netifs network) ->
  unproxy network (Router.vcs_per_vnet r) = Some (Options.vcs_per_vnet o)
  /\ unproxy network (NetworkInterface.vcs_per_vnet ni)
     = Some (Options.vcs_per_vnet o)
  /\ 0 <= Options.vcs_per_vnet o <= 4294967295.
Proof.
  intros G Ret network R I.
  pose proof (assemble_returned_garnet o ruby rs il el G Ret) as B.
  unfold create_network in R. rewrite G in R. cbn in R.
  injection R as <-.
  unfold network in I. rewrite assemble_netifs, G, B in I.
  change (String.eqb "garnet2.0" "garnet2.0" && true) with true in I.
  apply interfaces_for_In in I as (i & _ & ->).
  assert (V : Network.get Attr.vcs_per_vnet network
              = Some (Options.vcs_per_vnet o))
    by (unfold network; now rewrite assemble_get by (trivial || discriminate)).
  split; [exact V | split; [exact V |]].
  rewrite (block_completes_garnet o G) in B.
  unfold parameters_fit in B. rewrite forallb_forall in B.
  apply fits_UInt32.
  apply (B (Attr.vcs_per_vnet, Options.vcs_per_vnet o)). cbn. tauto.
Qed.

Lemma X13_routers_and_interfaces_agree_witness :
  unproxy (fst (assemble seven_vcs_options ruby0 [] [] three_ext_links))
    (Router.vcs_per_vnet
       (Router.mk (Parent Attr.vcs_per_vnet)
          (Parent Attr.number_of_virtual_networks)))
  = Some 7.
Proof.
  refine (proj1 (X13_routers_and_interfaces_agree
                   seven_vcs_options ruby0 [] [] three_ext_links
                   (Router.mk (Parent Attr.vcs_per_vnet)
                      (Parent Attr.number_of_virtual_networks))
                   (NetworkInterface.new GarnetNetworkInterface 0)
                   eq_refl eq_refl eq_refl _)).
  cbn. now left.
Defined.

(** * Properties of [define_options] *)

Example run_dest :
  map (fun o => OptionParser.dest (OptionParser.flag o)) (firstn 3 declarations)
  = ["topology"; "mesh_rows"; "network"].
Proof. reflexivity. Qed.

Example run_define_options_twice :
  match define_options empty_parser with
  | OptionParser.Ok parser =>
      match define_options parser with
      | OptionParser.Raise e _ => Some e
      | OptionParser.Ok _ => None
      end
  | OptionParser.Raise _ _ => None
  end
  = Some (OptionParser.OptionConflictError "--topology").
Proof. vm_compute. reflexivity. Qed.

(** Adding options that are new to the parser and to each other. *)
Lemma add_options_ok (l : list OptionParser.Option_) :
  forall parser,
    NoDup (map OptionParser.flag l) ->
    (forall o, In o l ->
       OptionParser.has_option (OptionParser.flag o) parser = false) ->
    OptionParser.add_options l parser
    = OptionParser.Ok
        (OptionParser.mk (OptionParser.option_list parser ++ l)
           (OptionParser.overlay l (OptionParser.defaults parser))).
Proof.
  induction l as [| o l IH]; intros parser N H; cbn.
  - rewrite app_nil_r. now destruct parser.
  - unfold OptionParser.add_option.
    rewrite (H o (or_introl eq_refl)).
    inversion N as [| ? ? N1 N2]; subst.
    rewrite IH; [cbn; now rewrite <- app_assoc | exact N2 |].
    intros o' I. pose proof (H o' (or_intror I)) as P.
    unfold OptionParser.has_option in *.
    cbn [OptionParser.option_list].
    rewrite existsb_app, P; cbn. rewrite orb_false_r.
    apply String.eqb_neq. intros E. apply N1.
    rewrite E. now apply in_map.
Qed.

(** A conflict names an option of [l] that the parser had already. *)
Lemma add_options_raise (l : list OptionParser.Option_) :
  forall parser e parser',
    NoDup (map OptionParser.flag l) ->
    OptionParser.add_options l parser = OptionParser.Raise e parser' ->
    exists o, In o l
      /\ e = OptionParser.OptionConflictError (OptionParser.flag o)
      /\ OptionParser.has_option (OptionParser.flag o) parser = true.
Proof.
  induction l as [| o l IH]; intros parser e parser' N H; cbn in H.
  - discriminate H.
  - inversion N as [| ? ? N1 N2]; subst.
    unfold OptionParser.add_option in H.
    destruct (OptionParser.has_option (OptionParser.flag o) parser) eqn:C.
    + injection H as <- <-. exists o. split; [now left | now split].
    + apply IH in H as (o' & I & -> & P); [| exact N2].
      exists o'. split; [now right | split; [reflexivity |]].
      unfold OptionParser.has_option in *.
      cbn [OptionParser.option_list] in P.
      rewrite existsb_app in P. cbn in P. rewrite orb_false_r in P.
      apply orb_true_iff in P as [P | P]; [exact P |].
      apply String.eqb_eq in P. exfalso. apply N1.
      rewrite P. now apply in_map.
Qed.

Lemma declarations_flags_NoDup : NoDup (map OptionParser.flag declarations).
Proof.
  assert (D : forall l : list string,
             (fix distinct (l : list string) : bool :=
                match l with
                | [] => true
                | x :: l' => negb (existsb (String.eqb x) l') && distinct l'
                end) l = true -> NoDup l).
  { induction l as [| x l IH]; intros H; constructor;
      apply andb_true_iff in H as [H1 H2].
    - intros I. apply negb_true_iff in H1.
      assert (E : existsb (String.eqb x) l = true)
        by (apply existsb_exists; exists x; split;
            [exact I | apply String.eqb_refl]).
      congruence.
    - now apply IH. }
  apply D. vm_compute. reflexivity.
Qed.

Lemma add_options_ok_inv (l : list OptionParser.Option_) :
  forall parser parser',
    OptionParser.add_options l parser = OptionParser.Ok parser' ->
    parser' = OptionParser.mk (OptionParser.option_list parser ++ l)
                (OptionParser.overlay l (OptionParser.defaults parser))
    /\ forall o, In o l ->
         OptionParser.has_option (OptionParser.flag o) parser = false.
Proof.
  induction l as [| o l IH]; intros parser parser' H; cbn in H.
  - injection H as <-. rewrite app_nil_r.
    split; [now destruct parser | intros o []].
  - unfold OptionParser.add_option in H.
    destruct (OptionParser.has_option (OptionParser.flag o) parser) eqn:C;
      [discriminate H |].
    apply IH in H as [-> P]. cbn.
    split; [now rewrite <- app_assoc |].
    intros o' [<- | I]; [exact C |].
    specialize (P o' I). unfold OptionParser.has_option in *.
    cbn [OptionParser.option_list] in P.
    rewrite existsb_app in P. now apply orb_false_iff in P as [P _].
Qed.

Lemma overlay_other (l : list OptionParser.Option_) (k : string) :
  forall d,
    (forall o, In o l -> OptionParser.dest (OptionParser.flag o) <> k) ->
    OptionParser.overlay l d k = d k.
Proof.
  induction l as [| o l IH]; intros d H; cbn; [reflexivity |].
  rewrite IH by (intros o' I; apply H; now right).
  unfold OptionParser.update.
  pose proof (H o (or_introl eq_refl)) as ne.
  apply String.eqb_neq in ne. now rewrite ne.
Qed.

Lemma define_options_ok_inv (parser parser' : OptionParser.t) :
  define_options parser = OptionParser.Ok parser' ->
  parser'
  = OptionParser.mk (OptionParser.option_list parser ++ declarations)
      (OptionParser.overlay declarations
         (OptionParser.update "cpu_type" (OptionParser.VString "timing")
            (OptionParser.defaults parser)))
  /\ forall o, In o declarations ->
       OptionParser.has_option (OptionParser.flag o) parser = false.
Proof.
  unfold define_options. intros H.
  apply add_options_ok_inv in H as [-> P]. split; [reflexivity | exact P].
Qed.

(** X14.  [define_options] succeeds on a parser that has none of its
    twenty-five flags, appending them in the order of the source; a failure
    is an [OptionConflictError] naming a flag the parser had already.  In
    particular a second call on the parser the first one returned raises at
    [--topology], having changed neither the options nor any default. *)
Theorem X14_define_options_conflicts (parser : OptionParser.t) :
  ((forall o, In o declarations ->
      OptionParser.has_option (OptionParser.flag o) parser = false) ->
   exists parser',
     define_options parser = OptionParser.Ok parser'
     /\ OptionParser.option_list parser'
        = (OptionParser.option_list parser ++ declarations)%list)
  /\ (forall e parser',
        define_options parser = OptionParser.Raise e parser' ->
        exists o, In o declarations
          /\ e = OptionParser.OptionConflictError (OptionParser.flag o)
          /\ OptionParser.has_option (OptionParser.flag o) parser = true)
  /\ (forall parser',
        define_options parser = OptionParser.Ok parser' ->
        exists parser'',
          define_options parser'
          = OptionParser.Raise (OptionParser.OptionConflictError "--topology")
              parser''
          /\ OptionParser.option_list parser''
             = OptionParser.option_list parser'
          /\ forall k, OptionParser.defaults parser'' k
                       = OptionParser.defaults parser' k).
Proof.
  split; [| split].
  - intros H. eexists. split.
    + unfold define_options.
      apply add_options_ok; [apply declarations_flags_NoDup | exact H].
    + reflexivity.
  - intros e parser' H. unfold define_options in H.
    apply add_options_raise in H; [exact H | apply declarations_flags_NoDup].
  - intros parser' H. apply define_options_ok_inv in H as [-> _].
    set (d := OptionParser.overlay declarations
                (OptionParser.update "cpu_type" (OptionParser.VString "timing")
                   (OptionParser.defaults parser))).
    exists (OptionParser.mk
              (OptionParser.option_list parser ++ declarations)
              (OptionParser.update "cpu_type" (OptionParser.VString "timing") d)).
    split; [| split].
    + unfold define_options, OptionParser.set_defaults.
      cbn [OptionParser.option_list OptionParser.defaults].
      unfold declarations at 1. cbn [OptionParser.add_options].
      unfold OptionParser.add_option.
      assert (C : OptionParser.has_option "--topology"
                    (OptionParser.mk
                       (OptionParser.option_list parser ++ declarations)
                       (OptionParser.update "cpu_type"
                          (OptionParser.VString "timing") d)) = true).
      { unfold OptionParser.has_option.
        cbn [OptionParser.option_list].
        rewrite existsb_app. apply orb_true_iff. right. reflexivity. }
      cbn [OptionParser.flag]. now rewrite C.
    + cbn [OptionParser.option_list]. reflexivity.
    + intros k. cbn [OptionParser.defaults].
      unfold OptionParser.update at 1.
      destruct (String.eqb "cpu_type" k) eqn:E; [| reflexivity].
      apply String.eqb_eq in E. subst k. symmetry. unfold d.
      rewrite overlay_other; [unfold OptionParser.update; reflexivity |].
      intros o I. unfold declarations in I. cbn [In] in I.
      repeat (destruct I as [<- | I]; [vm_compute; discriminate |]).
      destruct I.
Qed.

Lemma X14_define_options_conflicts_witness :
  exists parser',
    define_options empty_parser = OptionParser.Ok parser'
    /\ OptionParser.option_list parser'
       = (OptionParser.option_list empty_parser ++ declarations)%list.
Proof.
  apply (X14_define_options_conflicts empty_parser).
  intros o _. reflexivity.
Defined.

Lemma define_options_empty :
  define_options empty_parser = OptionParser.Ok defined_parser.
Proof. vm_compute. reflexivity. Qed.

(** X15.  After a successful [define_options] every option it declares has
    its declared default stored under its attribute name, whatever default
    the parser held there before, and that default is of the option's kind
    and, for a choice, one of the choices; [cpu_type] defaults to
    [timing]; every other default is as it was. *)
Theorem X15_define_options_defaults (parser parser' : OptionParser.t) :
  define_options parser = OptionParser.Ok parser' ->
  (forall o, In o declarations ->
     OptionParser.defaults parser' (OptionParser.dest (OptionParser.flag o))
     = Some (OptionParser.default o)
     /\ OptionParser.default_fits o = true)
  /\ OptionParser.defaults parser' "cpu_type"
     = Some (OptionParser.VString "timing")
  /\ (forall k,
        k <> "cpu_type" ->
        (forall o, In o declarations ->
           OptionParser.dest (OptionParser.flag o) <> k) ->
        OptionParser.defaults parser' k = OptionParser.defaults parser k).
Proof.
  intros H. apply define_options_ok_inv in H as [-> _].
  cbn [OptionParser.defaults].
  generalize (OptionParser.defaults parser). intros d.
  split; [| split].
  - intros o I. unfold declarations in I. cbn [In] in I.
    repeat (destruct I as [<- | I]; [vm_compute; split; reflexivity |]).
    destruct I.
  - vm_compute. reflexivity.
  - intros k ne H. rewrite (overlay_other declarations k _ H).
    unfold OptionParser.update. apply not_eq_sym in ne.
    apply String.eqb_neq in ne. now rewrite ne.
Qed.

Lemma X15_define_options_defaults_witness :
  OptionParser.defaults defined_parser "cpu_type"
  = Some (OptionParser.VString "timing").
Proof.
  refine (proj1 (proj2 (X15_define_options_defaults
                          empty_parser defined_parser _))).
  vm_compute. reflexivity.
Defined.

(** X16.  The defaults [define_options] leaves read back as
    [default_options], on whatever parser it ran: the option values
    [create_network] and [init_network] see when the command line gives no
    option.  They pass the parser's own choice lists, which are the lists
    of the two choice options. *)
Theorem X16_defaults_read_back (parser parser' : OptionParser.t) :
  define_options parser = OptionParser.Ok parser' ->
  read_options (OptionParser.defaults parser') = Some default_options
  /\ Options.accepted default_options = true
  /\ In (OptionParser.mk_option "--network"
           (OptionParser.choice Options.network_choices)
           (OptionParser.VString (Options.network default_options)))
        declarations
  /\ In (OptionParser.mk_option "--routing-algorithm"
           (OptionParser.choice Options.routing_algorithm_choices)
           (OptionParser.VString (Options.routing_algorithm default_options)))
        declarations.
Proof.
  intros H. apply define_options_ok_inv in H as [-> _].
  cbn [OptionParser.defaults].
  generalize (OptionParser.defaults parser). intros d.
  split; [vm_compute; reflexivity | split; [reflexivity |]].
  split; vm_compute; tauto.
Qed.

Lemma X16_defaults_read_back_witness :
  read_options (OptionParser.defaults defined_parser) = Some default_options.
Proof.
  refine (proj1 (X16_defaults_read_back empty_parser defined_parser _)).
  vm_compute. reflexivity.
Defined.
